(** * The test bootstrap of test/mocks/databasemock.js

    A shallow embedding of the module that prepares the test
    environment: it resolves the configuration through nconf, refuses to
    run when the test database is the production one, points the
    configuration at the test database, and, in the mocha [before] hook,
    initialises the database, seeds it ([setupMockDefaults]) and starts
    the services.  [setupMockDefaults] is run again after every suite.

    The module is a sequence of calls into other modules.  We model it in
    a state-and-exception monad over a [state] that holds what the module
    itself reads and writes (the nconf stores, [meta.config], the cached
    [defaults.json] object, the database records the seeding touches, the
    upload directories) together with the trace of the calls made.
    winston logging has no bearing on control flow and is left out. *)

From stdpp Require Import gmap strings list fin_maps pretty.

Local Open Scope string_scope.
Local Open Scope list_scope.
Set Warnings "-register-all,-clear-no-such-hyp".

(** ** The calls into other modules *)

(** The functions of other modules that the bootstrap calls, by their
    names in the source.  Only arguments that are literals in the source
    are kept.  Loading a module with [require] is not a call. *)
Inductive call : Type :=
| db_init
| db_createIndices
| db_emptydb
| db_initSessionStore
| db_sortedSetAdd (key : string)
| meta_configs_setOnEmpty
| meta_configs_init
| meta_dependencies_check
| meta_themes_set (type id : string)
| groups_cache_reset
| posts_cache_reset
| cache_reset
| uploads_clearCache
| privileges_global_give (group : string)
| sockets_init
| notifications_startJobs
| user_startJobs
| webserver_listen
| fs_rm (path : string)
| mkdirp (path : string).

Global Instance call_eq_dec : EqDecision call.
Proof. solve_decision. Defined.

(** An entry of the trace: the call, and whether the source awaits it. *)
Record event : Type := Ev { ev_call : call; ev_awaited : bool }.

Global Instance event_eq_dec : EqDecision event.
Proof. solve_decision. Defined.

(** ** JavaScript values *)

(** The values that reach this module come from JSON files and from
    string operations.  Numbers are the integer-valued ones (ports and
    settings; below 10^21 in absolute value, where the string of a number
    is its decimal writing). *)
Inductive jsval : Type :=
| JUndefined
| JNull
| JBool (b : bool)
| JNum (z : Z)
| JStr (s : string)
| JArr (items : list jsval)
| JObj (fields : list (string * jsval)).

(** What the module can throw. *)
Inductive exn : Type :=
| FsError (path : string)          (* err of fs.readFileSync, rethrown *)
| ParseError (path : string)       (* nconf.file on a malformed file *)
| ModuleNotFound (path : string)   (* require of a missing file *)
| TypeError (what : string)        (* raised by the runtime or by node *)
| Error (message : string)         (* new Error(message) *)
| Rejected (c : call).             (* a call into another module failed *)

Inductive result (A : Type) : Type :=
| Ok (a : A)
| Throw (e : exn).
Arguments Ok {A} a.
Arguments Throw {A} e.

Module Js.

(** [!v] is [negb (truthy v)]. *)
Definition truthy (v : jsval) : bool :=
  match v with
  | JUndefined | JNull => false
  | JBool b => b
  | JNum z => negb (z =? 0)%Z
  | JStr s => negb (String.eqb s "")
  | JArr _ | JObj _ => true
  end.

(** [a || b] *)
Definition or (a b : jsval) : jsval := if truthy a then a else b.

Definition is_scalar (v : jsval) : bool :=
  match v with
  | JArr _ | JObj _ => false
  | _ => true
  end.

(** [a === b].  Two scalars are compared by type and value.  The
    objects and arrays compared in this module are read through two
    different configuration keys, hence are different objects. *)
Definition strict_eq (a b : jsval) : bool :=
  match a, b with
  | JUndefined, JUndefined => true
  | JNull, JNull => true
  | JBool x, JBool y => Bool.eqb x y
  | JNum x, JNum y => (x =? y)%Z
  | JStr x, JStr y => String.eqb x y
  | _, _ => false
  end.

Fixpoint assoc (k : string) (fields : list (string * jsval)) : jsval :=
  match fields with
  | [] => JUndefined
  | (k', v) :: rest => if String.eqb k k' then v else assoc k rest
  end.

(** [v.name] for a name that is no built-in property of strings,
    numbers, booleans or arrays ([database], [host], [port]). *)
Definition prop (v : jsval) (name : string) : result jsval :=
  match v with
  | JUndefined =>
      Throw (TypeError ("Cannot read properties of undefined (reading '" +:+ name +:+ "')"))
  | JNull =>
      Throw (TypeError ("Cannot read properties of null (reading '" +:+ name +:+ "')"))
  | JObj fields => Ok (assoc name fields)
  | _ => Ok JUndefined
  end.

Fixpoint join (sep : string) (l : list string) : string :=
  match l with
  | [] => ""
  | [s] => s
  | s :: rest => s +:+ sep +:+ join sep rest
  end.

(** String conversion as done by a template literal. *)
Fixpoint to_string (v : jsval) : string :=
  match v with
  | JUndefined => "undefined"
  | JNull => "null"
  | JBool true => "true"
  | JBool false => "false"
  | JNum z => pretty z
  | JStr s => s
  | JArr items =>
      join "," (List.map (fun x => match x with
                                   | JUndefined | JNull => ""
                                   | _ => to_string x
                                   end) items)
  | JObj _ => "[object Object]"
  end.

Definition is_array (v : jsval) : bool :=
  match v with JArr _ => true | _ => false end.

Definition dquote : string := String (Ascii.ascii_of_nat 34) EmptyString.

(** How the message of node's ERR_INVALID_ARG_TYPE ends, for the value
    that was received.  The error is raised for values that are no
    strings. *)
Definition received (v : jsval) : string :=
  match v with
  | JUndefined => "Received undefined"
  | JNull => "Received null"
  | JBool _ => "Received type boolean (" +:+ to_string v +:+ ")"
  | JNum _ => "Received type number (" +:+ to_string v +:+ ")"
  | JStr s => "Received type string ('" +:+ s +:+ "')"
  | JArr _ => "Received an instance of Array"
  | JObj _ => "Received an instance of Object"
  end.

(** The TypeError of node's [validateString (v, name)]. *)
Definition invalid_arg_type (name : string) (v : jsval) : exn :=
  TypeError ("The " +:+ dquote +:+ name +:+ dquote
             +:+ " argument must be of type string. " +:+ received v).

End Js.

(** ** node's [path] (posix) *)

Module Path.

Definition slash : Ascii.ascii := Ascii.ascii_of_nat 47.

Fixpoint split (s : string) : list string :=
  match s with
  | EmptyString => [EmptyString]
  | String c r =>
      if Ascii.eqb c slash then EmptyString :: split r
      else match split r with
           | seg :: segs => String c seg :: segs
           | [] => [String c EmptyString]
           end
  end.

(** One step of [normalizeString]; the stack holds the segments kept so
    far, last one first. *)
Definition norm_step (allowAboveRoot : bool) (stack : list string) (seg : string)
  : list string :=
  if String.eqb seg "" || String.eqb seg "." then stack
  else if String.eqb seg ".." then
    match stack with
    | top :: rest =>
        if String.eqb top ".." then seg :: stack else rest
    | [] => if allowAboveRoot then [seg] else []
    end
  else seg :: stack.

Definition segments (allowAboveRoot : bool) (p : string) : list string :=
  rev (fold_left (norm_step allowAboveRoot) (split p) []).

Definition is_absolute (p : string) : bool :=
  match p with
  | String c _ => Ascii.eqb c slash
  | EmptyString => false
  end.

Fixpoint ends_with_slash (p : string) : bool :=
  match p with
  | EmptyString => false
  | String c EmptyString => Ascii.eqb c slash
  | String _ r => ends_with_slash r
  end.

Definition normalize (p : string) : string :=
  if String.eqb p "" then "."
  else
    let abs := is_absolute p in
    let trailing := ends_with_slash p in
    let body := Js.join "/" (segments (negb abs) p) in
    if String.eqb body "" then
      if abs then "/" else if trailing then "./" else "."
    else
      (if abs then "/" else "") +:+ body +:+ (if trailing then "/" else "").

(** The loop of [path.join]: every argument must be a string, the empty
    ones are skipped. *)
Fixpoint join_args (joined : option string) (args : list jsval)
  : result (option string) :=
  match args with
  | [] => Ok joined
  | JStr a :: rest =>
      if String.eqb a "" then join_args joined rest
      else join_args (Some (match joined with
                            | None => a
                            | Some j => j +:+ "/" +:+ a
                            end)) rest
  | v :: _ => Throw (Js.invalid_arg_type "path" v)
  end.

Definition join (args : list jsval) : result string :=
  match join_args None args with
  | Ok None => Ok "."
  | Ok (Some j) => Ok (normalize j)
  | Throw e => Throw e
  end.

(** The directory a relative path names, as segments below the working
    directory. *)
Definition relative (p : string) : list string := segments true p.

End Path.

(** ** The world of the bootstrap *)

(** The result of [url.parse]; a field is a string or [null]. *)
Record url_object : Type := UrlObject {
  protocol : jsval;
  host : jsval;
  hostname : jsval;
  port : jsval;
  pathname : jsval
}.

Definition url_to_js (u : url_object) : jsval :=
  JObj [("protocol", protocol u); ("host", host u); ("hostname", hostname u);
        ("port", port u); ("pathname", pathname u)].

Inductive config_source : Type :=
| Unreadable                                 (* fs.readFileSync throws *)
| Malformed                                  (* readable, not valid JSON *)
| Parsed (content : gmap string jsval).      (* what nconf reads from it, by key *)

(** Modelled from the spec: the records of the store (src/database,
    src/meta and src/privileges are not among the sources).  The
    configuration persisted to the store, the Privilege Set (capabilities
    granted to subject groups), the sorted sets (the Extension Activation
    List is the ordered set [plugins:active], in which duplicates
    collapse), the theme selection, and every other record. *)
Record db_state : Type := Db {
  db_config : gmap string jsval;
  db_privileges : gset (string * string);
  db_sorted_sets : gmap string (list string);
  db_theme : option (string * string);
  db_records : gmap string jsval
}.

Definition db_empty : db_state := Db ∅ ∅ ∅ None ∅.

Inductive node : Type := File | Dir.

(** What the process is given: it does not change while the process runs. *)
Record env : Type := Env {
  dirname : string;                               (* __dirname *)
  cwd : string;                                   (* process.cwd() *)
  config_json : config_source;                    (* ../../config.json *)
  url_parse : string → url_object;                (* url.parse on a string *)
  package_version : jsval;                        (* packageInfo.version *)
  json_files : string → option (gmap string jsval); (* what require finds *)
  has_createIndices : bool;                       (* db.createIndices is defined *)
  configs_loaded : db_state → gmap string jsval;  (* meta.config after meta.configs.init *)
  faults : nat → bool                             (* whether the n-th call fails *)
}.

(** What the process changes.  nconf keys are its key strings: no key
    this module reads is an ancestor or a descendant (through nconf's
    [:]) of a key it writes, so a map by key string is exact here.  The
    directories are those below the working directory, by path segments. *)
Record state : Type := State {
  nconf_file : gmap string jsval;                 (* the file store; nconf.set writes it *)
  nconf_defaults : gmap string jsval;             (* the store of nconf.defaults *)
  module_cache : gmap string (gmap string jsval); (* the objects require has returned *)
  meta_config : gmap string jsval;                (* meta.config *)
  db : db_state;
  fs : gmap (list string) node;
  trace : list event
}.

Definition with_nconf_file (f : gmap string jsval) (st : state) : state :=
  State f (nconf_defaults st) (module_cache st) (meta_config st) (db st) (fs st) (trace st).
Definition with_nconf_defaults (d : gmap string jsval) (st : state) : state :=
  State (nconf_file st) d (module_cache st) (meta_config st) (db st) (fs st) (trace st).
Definition with_module_cache (c : gmap string (gmap string jsval)) (st : state) : state :=
  State (nconf_file st) (nconf_defaults st) c (meta_config st) (db st) (fs st) (trace st).
Definition with_meta_config (c : gmap string jsval) (st : state) : state :=
  State (nconf_file st) (nconf_defaults st) (module_cache st) c (db st) (fs st) (trace st).
Definition with_db (d : db_state) (st : state) : state :=
  State (nconf_file st) (nconf_defaults st) (module_cache st) (meta_config st) d (fs st) (trace st).
Definition with_fs (f : gmap (list string) node) (st : state) : state :=
  State (nconf_file st) (nconf_defaults st) (module_cache st) (meta_config st) (db st) f (trace st).
Definition with_trace (t : list event) (st : state) : state :=
  State (nconf_file st) (nconf_defaults st) (module_cache st) (meta_config st) (db st) (fs st) t.

(** The process at its start: nothing is configured, no call was made.
    The store and the directories are whatever earlier runs left. *)
Definition cold (d : db_state) (f : gmap (list string) node) : state :=
  State ∅ ∅ ∅ ∅ d f [].

(** ** The monad *)

Definition M (A : Type) : Type := env → state → state * result A.

Definition ret {A} (a : A) : M A := fun _ st => (st, Ok a).

Definition throw {A} (e : exn) : M A := fun _ st => (st, Throw e).

Definition bind {A B} (m : M A) (k : A → M B) : M B :=
  fun e st =>
    match m e st with
    | (st', Ok a) => k a e st'
    | (st', Throw x) => (st', Throw x)
    end.

Definition lift {A} (r : result A) : M A := fun _ st => (st, r).

Definition gets {A} (f : env → state → A) : M A := fun e st => (st, Ok (f e st)).

Definition modify (f : state → state) : M unit := fun _ st => (f st, Ok tt).

Declare Scope prog_scope.
Delimit Scope prog_scope with prog.
Bind Scope prog_scope with M.
Notation "x <- m ;; k" := (bind m (fun x => k))
  (at level 100, m at next level, k at level 200, right associativity) : prog_scope.
Notation "m ;; k" := (bind m (fun _ => k))
  (at level 100, k at level 200, right associativity) : prog_scope.
Local Open Scope prog_scope.

(** A call into another module: it is recorded, and it fails when the
    environment says so. *)
Definition invoke (awaited : bool) (c : call) : M unit :=
  fun e st =>
    let st' := with_trace (trace st ++ [Ev c awaited]) st in
    if faults e (length (trace st)) then (st', Throw (Rejected c)) else (st', Ok tt).

Definition await : call → M unit := invoke true.
Definition sync : call → M unit := invoke false.

(** ** nconf *)

Module Nconf.

Definition defined (o : option jsval) : option jsval :=
  match o with
  | Some JUndefined => None
  | _ => o
  end.

(** The first store that defines the key answers: the file store, then
    the defaults.  A store is keyed by the key as written: nconf takes a
    key for a path of names separated by colons, so this is what nconf
    answers where the module itself reads a key, and for every key that
    is related to no written key ([unrelated] below). *)
Definition lookup (st : state) (key : string) : jsval :=
  match defined (nconf_file st !! key) with
  | Some v => v
  | None => default JUndefined (nconf_defaults st !! key)
  end.

Definition get (key : string) : M jsval := gets (fun _ st => lookup st key).

(** The defaults store is read-only: [set] goes to the file store,
    under the key as written (see [lookup]). *)
Definition set (key : string) (v : jsval) : M unit :=
  modify (fun st => with_nconf_file (<[key := v]> (nconf_file st)) st).

End Nconf.

Definition path_join (args : list jsval) : M string := lift (Path.join args).

(** ** The upload directories *)

Module Fs.

(** The non-empty prefixes of a path, shortest first; the last one is
    the path itself. *)
Fixpoint prefixes (p : list string) : list (list string) :=
  match p with
  | [] => []
  | x :: r => [x] :: List.map (cons x) (prefixes r)
  end.

Definition is_file (f : gmap (list string) node) (p : list string) : bool :=
  match f !! p with
  | Some File => true
  | _ => false
  end.

(** [fs.promises.rm(p, { recursive: true, force: true })]: the entry and
    all below it go; a missing entry is no error, a file on the way to
    it is. *)
Definition rm (name : string) (f : gmap (list string) node)
  : result (gmap (list string) node) :=
  let p := Path.relative name in
  if existsb (is_file f) (removelast (prefixes p)) then Throw (FsError name)
  else Ok (filter (λ kv, ¬ (p `prefix_of` kv.1)) f).

(** [mkdirp(p)]: the directory and the missing ones above it are made;
    a file in the way is an error. *)
Definition mkdirp (name : string) (f : gmap (list string) node)
  : result (gmap (list string) node) :=
  let p := Path.relative name in
  if existsb (is_file f) (prefixes p) then Throw (FsError name)
  else Ok (foldr (λ d acc, <[d := Dir]> acc) f (prefixes p)).

(** A directory that holds nothing. *)
Definition empty_dir (f : gmap (list string) node) (p : list string) : Prop :=
  f !! p = Some Dir ∧ ∀ q, p `prefix_of` q → q ≠ p → f !! q = None.

End Fs.

Definition fs_apply (op : gmap (list string) node → result (gmap (list string) node))
  : M unit :=
  fun _ st =>
    match op (fs st) with
    | Ok f => (with_fs f st, Ok tt)
    | Throw x => (st, Throw x)
    end.

(** ** The store, as the seeding uses it *)

Module Store.

(** Modelled from the spec: [db.emptydb] (src/database is not among the
    sources) irreversibly erases all persisted records. *)
Definition emptydb (d : db_state) : db_state := db_empty.

(** Modelled from the spec: [meta.configs.setOnEmpty] (src/meta is not
    among the sources) applies the defaults only to keys currently
    absent and never overwrites a configured value. *)
Definition setOnEmpty (defaults : gmap string jsval) (d : db_state) : db_state :=
  Db (db_config d ∪ defaults) (db_privileges d) (db_sorted_sets d) (db_theme d)
     (db_records d).

(** Modelled from the spec: [privileges.global.give] (src/privileges is
    not among the sources) grants the capabilities to the group;
    additive only. *)
Definition give (privs : list string) (group : string) (d : db_state) : db_state :=
  Db (db_config d)
     (db_privileges d ∪ list_to_set ((λ p, (p, group)) <$> privs))
     (db_sorted_sets d) (db_theme d) (db_records d).

Definition add_member (l : list string) (m : string) : list string :=
  if bool_decide (m ∈ l) then l else l ++ [m].

(** Modelled from the spec: [db.sortedSetAdd] (src/database is not among
    the sources) adds the members to the ordered set; duplicates
    collapse. *)
Definition sortedSetAdd (key : string) (members : list string) (d : db_state)
  : db_state :=
  Db (db_config d) (db_privileges d)
     (<[key := fold_left add_member members (default [] (db_sorted_sets d !! key))]>
        (db_sorted_sets d))
     (db_theme d) (db_records d).

(** Modelled from the spec: [meta.themes.set] (src/meta is not among the
    sources) applies the theme selection. *)
Definition set_theme (type id : string) (d : db_state) : db_state :=
  Db (db_config d) (db_privileges d) (db_sorted_sets d) (Some (type, id))
     (db_records d).

Definition plugins_active (d : db_state) : list string :=
  default [] (db_sorted_sets d !! "plugins:active").

End Store.

Definition db_apply (f : db_state → db_state) : M unit :=
  modify (fun st => with_db (f (db st)) st).

(** ** The module, top level (lines 27 to 96) *)

Definition under_dirname (rel : string) : M string :=
  d <- gets (fun e _ => dirname e);;
  path_join [JStr d; JStr rel].

(** Load config.json (lines 28 to 35): the read is only a check, the
    error of a failed read is thrown again. *)
Definition load_config : M unit :=
  file <- under_dirname "../../config.json";;
  src <- gets (fun e _ => config_json e);;
  match src with
  | Unreadable => throw (FsError file)
  | _ => ret tt
  end.

(** [nconf.file] and [nconf.defaults] (lines 38 to 45). *)
Definition load_nconf : M unit :=
  file <- under_dirname "../../config.json";;
  src <- gets (fun e _ => config_json e);;
  match src with
  | Parsed content => modify (with_nconf_file content)
  | Malformed => throw (ParseError file)
  | Unreadable => modify (with_nconf_file ∅)
  end;;
  base_dir <- under_dirname "../..";;
  themes_path <- under_dirname "../../node_modules";;
  views_dir <- under_dirname "../../build/public/templates";;
  modify (with_nconf_defaults
            (list_to_map [("base_dir", JStr base_dir);
                          ("themes_path", JStr themes_path);
                          ("upload_path", JStr "test/uploads");
                          ("views_dir", JStr views_dir);
                          ("relative_path", JStr "")])).

(** [url.parse(nconf.get('url'))] *)
Definition parse_url : M url_object :=
  u <- Nconf.get "url";;
  match u with
  | JStr s => gets (fun e _ => url_parse e s)
  | _ => throw (Js.invalid_arg_type "url" u)
  end.

(** Parse URL and set up relative paths (lines 48 to 58). *)
Definition derive_paths : M url_object :=
  urlObject <- parse_url;;
  let relativePath :=
    if negb (Js.strict_eq (pathname urlObject) (JStr "/")) then pathname urlObject
    else JStr "" in
  Nconf.set "relative_path" relativePath;;
  Nconf.set "asset_base_url" (JStr (Js.to_string relativePath +:+ "/assets"));;
  base_dir <- Nconf.get "base_dir";;
  upload_path <- Nconf.get "upload_path";;
  joined <- path_join [base_dir; upload_path];;
  Nconf.set "upload_path" (JStr joined);;
  Nconf.set "upload_url" (JStr "/assets/uploads");;
  Nconf.set "url_parsed" (url_to_js urlObject);;
  Nconf.set "base_url"
    (JStr (Js.to_string (protocol urlObject) +:+ "//" +:+ Js.to_string (host urlObject)));;
  Nconf.set "secure" (JBool (Js.strict_eq (protocol urlObject) (JStr "https:")));;
  Nconf.set "use_port" (JBool (Js.truthy (port urlObject)));;
  configured_port <- Nconf.get "port";;
  Nconf.set "port" (Js.or (Js.or (port urlObject) configured_port) (JNum 4567));;
  ret urlObject.

(** Socket.io origins and cluster settings (lines 61 to 69). *)
Definition socket_origins (urlObject : url_object) : M unit :=
  cookieDomain <- Nconf.get "cookieDomain";;
  let domain := Js.or cookieDomain (hostname urlObject) in
  configured <- Nconf.get "socket.io:origins";;
  let origins :=
    Js.or configured
      (JStr (Js.to_string (protocol urlObject) +:+ "//" +:+ Js.to_string domain +:+ ":*")) in
  Nconf.set "socket.io:origins" origins;;
  isCluster <- Nconf.get "isCluster";;
  if Js.strict_eq isCluster JUndefined then
    Nconf.set "isPrimary" (JBool true);;
    Nconf.set "isCluster" (JBool false);;
    Nconf.set "singleHostCluster" (JBool false)
  else ret tt.

(** The three values read from the configuration (lines 72 to 74). *)
Record db_settings : Type := DbSettings {
  dbType : jsval;
  testDbConfig : jsval;
  productionDbConfig : jsval
}.

(** Database type and configuration, and the check that the test
    database is defined (lines 72 to 79). *)
Definition database_config : M db_settings :=
  dbType <- Nconf.get "database.type";;
  testDbConfig <- Nconf.get "test_database";;
  productionDbConfig <- Nconf.get "database";;
  if negb (Js.truthy testDbConfig) then
    throw (Error "Test database is not defined in config.json")
  else ret (DbSettings dbType testDbConfig productionDbConfig).

(** The condition of the [if] of line 82, operands evaluated left to
    right with the short cut of [&&]. *)
Definition same_target (test production : jsval) : result bool :=
  match Js.prop test "database", Js.prop production "database" with
  | Throw x, _ | Ok _, Throw x => Throw x
  | Ok td, Ok pd =>
      if Js.strict_eq td pd then
        match Js.prop test "host", Js.prop production "host" with
        | Throw x, _ | Ok _, Throw x => Throw x
        | Ok th, Ok ph =>
            if Js.strict_eq th ph then
              match Js.prop test "port", Js.prop production "port" with
              | Throw x, _ | Ok _, Throw x => Throw x
              | Ok tp, Ok pp => Ok (Js.strict_eq tp pp)
              end
            else Ok false
        end
      else Ok false
  end.

Definition unsafe_environment : exn :=
  Error "Test database has the same config as production database".

(** Test and production databases must not be the same (lines 82 to 87). *)
Definition environment_guard (s : db_settings) : M unit :=
  same <- lift (same_target (testDbConfig s) (productionDbConfig s));;
  if same : bool then throw unsafe_environment else ret tt.

Definition database_key (dbType : jsval) : string :=
  "database." +:+ Js.to_string dbType.

(** Set the test database configuration (line 90). *)
Definition use_test_database (s : db_settings) : M unit :=
  Nconf.set (database_key (dbType s)) (testDbConfig s).

(** The configuration file, the defaults and the derived keys (lines 28
    to 69). *)
Definition configure : M unit :=
  load_config;;
  load_nconf;;
  urlObject <- derive_paths;;
  socket_origins urlObject.

(** The part of the top level that builds the configuration (lines 28
    to 79). *)
Definition resolve_config : M db_settings :=
  configure;;
  database_config.

(** The top level of the module, up to the registration of the hook. *)
Definition module_top : M unit :=
  s <- resolve_config;;
  environment_guard s;;
  use_test_database s.

(** ** The functions of the module (lines 150 to 230) *)

(** [require] of a JSON file: the same object is returned every time. *)
Definition require_json (file : string) : M unit :=
  fun e st =>
    match module_cache st !! file with
    | Some _ => (st, Ok tt)
    | None =>
        match json_files e file with
        | Some o => (with_module_cache (<[file := o]> (module_cache st)) st, Ok tt)
        | None => (st, Throw (ModuleNotFound file))
        end
    end.

(** [object.key = v] on the object that [require] returned for a file. *)
Definition assign_in_module (file key : string) (v : jsval) : M unit :=
  modify (fun st => with_module_cache (alter (insert key v) file (module_cache st)) st).

Definition module_object (st : state) (file : string) : gmap string jsval :=
  default ∅ (module_cache st !! file).

(** [setupDefaultConfigs] (lines 196 to 202) *)
Definition setupDefaultConfigs : M unit :=
  base_dir <- Nconf.get "base_dir";;
  file <- path_join [base_dir; JStr "install/data/defaults.json"];;
  require_json file;;
  assign_in_module file "eventLoopCheckEnabled" (JNum 0);;
  assign_in_module file "minimumPasswordStrength" (JNum 0);;
  await meta_configs_setOnEmpty;;
  defaults <- gets (fun _ st => module_object st file);;
  db_apply (Store.setOnEmpty defaults).

Definition registered_users_privileges : list string :=
  ["groups:chat"; "groups:upload:post:image"; "groups:signature"; "groups:search:content";
   "groups:search:users"; "groups:search:tags"; "groups:local:login"; "groups:view:users";
   "groups:view:tags"; "groups:view:groups"].

Definition guests_privileges : list string :=
  ["groups:view:users"; "groups:view:tags"; "groups:view:groups"].

(** [giveDefaultGlobalPrivileges] (lines 205 to 216) *)
Definition giveDefaultGlobalPrivileges : M unit :=
  await (privileges_global_give "registered-users");;
  db_apply (Store.give registered_users_privileges "registered-users");;
  await (privileges_global_give "guests");;
  db_apply (Store.give guests_privileges "guests").

Definition default_plugins : list string :=
  ["nodebb-plugin-dbsearch"; "nodebb-widget-essentials"; "nodebb-plugin-composer-default"].

Definition array_items (v : jsval) : list jsval :=
  match v with JArr items => items | _ => [] end.

(** [enableDefaultPlugins] (lines 219 to 230) *)
Definition enableDefaultPlugins : M unit :=
  configured <- Nconf.get "test_plugins";;
  let testPlugins := if Js.is_array configured then array_items configured else [] in
  let defaultEnabled := (default_plugins ++ (Js.to_string <$> testPlugins))%list in
  await (db_sortedSetAdd "plugins:active");;
  db_apply (Store.sortedSetAdd "plugins:active" defaultEnabled).

Definition set_meta_config (key : string) (v : jsval) : M unit :=
  modify (fun st => with_meta_config (<[key := v]> (meta_config st)) st).

Fixpoint for_each {A} (l : list A) (body : A → M unit) : M unit :=
  match l with
  | [] => ret tt
  | x :: rest => body x;; for_each rest body
  end.

Definition folders : list string :=
  ["test/uploads"; "test/uploads/category"; "test/uploads/files";
   "test/uploads/system"; "test/uploads/profile"].

(** Line 153: the database is flushed. *)
Definition empty_step : M unit :=
  await db_emptydb;;
  db_apply Store.emptydb.

(** Lines 156 to 176: default configuration, test settings, caches,
    privileges, plugins, theme. *)
Definition seed_steps : M unit :=
  setupDefaultConfigs;;
  await meta_configs_init;;
  loaded <- gets (fun e st => configs_loaded e (db st));;
  modify (with_meta_config loaded);;
  set_meta_config "postDelay" (JNum 0);;
  set_meta_config "initialPostDelay" (JNum 0);;
  set_meta_config "newbiePostDelay" (JNum 0);;
  set_meta_config "autoDetectLang" (JNum 0);;
  sync groups_cache_reset;;
  sync posts_cache_reset;;
  sync cache_reset;;
  sync uploads_clearCache;;
  giveDefaultGlobalPrivileges;;
  enableDefaultPlugins;;
  await (meta_themes_set "local" "nodebb-theme-persona");;
  db_apply (Store.set_theme "local" "nodebb-theme-persona").

(** Lines 179 to 192: the upload directories. *)
Definition stage_steps : M unit :=
  await (fs_rm "test/uploads");;
  fs_apply (Fs.rm "test/uploads");;
  for_each folders (fun folder =>
    await (mkdirp folder);;
    fs_apply (Fs.mkdirp folder)).

(** [setupMockDefaults] (lines 151 to 193) *)
Definition setupMockDefaults : M unit :=
  empty_step;;
  seed_steps;;
  stage_steps.

(** ** The [before] hook (lines 99 to 148) *)

Definition service_startup : M unit :=
  await db_initSessionStore;;
  templates <- gets (fun _ st => default JUndefined (meta_config st !! "theme:templates"));;
  theme_templates_path <-
    (if Js.truthy templates then
       themes_path <- Nconf.get "themes_path";;
       id <- gets (fun _ st => default JUndefined (meta_config st !! "theme:id"));;
       joined <- path_join [themes_path; id; templates];;
       ret (JStr joined)
     else Nconf.get "base_templates_path");;
  Nconf.set "theme_templates_path" theme_templates_path;;
  sessionKey <- Nconf.get "sessionKey";;
  (if negb (Js.truthy sessionKey) then Nconf.set "sessionKey" (JStr "express.sid")
   else ret tt);;
  await meta_dependencies_check;;
  await sockets_init;;
  sync notifications_startJobs;;
  sync user_startJobs;;
  await webserver_listen.

Definition before_hook : M unit :=
  parse_url;;
  core_templates_path <- under_dirname "../../src/views";;
  Nconf.set "core_templates_path" (JStr core_templates_path);;
  themes_path <- Nconf.get "themes_path";;
  base_templates_path <- path_join [themes_path; JStr "nodebb-theme-persona/templates"];;
  Nconf.set "base_templates_path" (JStr base_templates_path);;
  themes_path' <- Nconf.get "themes_path";;
  theme_config <- path_join [themes_path'; JStr "nodebb-theme-persona"; JStr "theme.json"];;
  Nconf.set "theme_config" (JStr theme_config);;
  Nconf.set "bcrypt_rounds" (JNum 1);;
  Nconf.set "socket.io:origins" (JStr "*:*");;
  version <- gets (fun e _ => package_version e);;
  Nconf.set "version" version;;
  Nconf.set "runJobs" (JBool false);;
  Nconf.set "jobsDisabled" (JBool false);;
  await db_init;;
  createIndices <- gets (fun e _ => has_createIndices e);;
  (if createIndices : bool then await db_createIndices else ret tt);;
  setupMockDefaults;;
  service_startup.

(** The callback registered with [afterAll] on every suite (lines 143 to
    147). *)
Definition afterAll_callback : M unit := setupMockDefaults.

(** The process up to the first test: the module is loaded, then mocha
    runs the [before] hook that the module registered; the hook is not
    registered when the top level throws. *)
Definition bootstrap : M unit :=
  module_top;;
  before_hook.

(** * What the theorems are stated with *)

(** ** Effects of a program *)

(** [stable proj m]: whatever happens, [m] leaves [proj] of the state as
    it was. *)
Definition stable {X A} (proj : state → X) (m : M A) : Prop :=
  ∀ e st, proj (m e st).1 = proj st.

(** [runs e m script]: in environment [e], from any state, [m] makes
    the calls of [script], in that order, and stops short of the end of
    [script] only by failing. *)
Definition runs {A} (e : env) (m : M A) (script : list event) : Prop :=
  ∀ st, ∃ l,
    trace (m e st).1 = trace st ++ l ∧
    l `prefix_of` script ∧
    (∀ a, (m e st).2 = Ok a → l = script).

(** No call into another module fails. *)
Definition no_faults (e : env) : Prop := ∀ n, faults e n = false.

(** The two stores of nconf. *)
Definition nconf_stores (st : state) : gmap string jsval * gmap string jsval :=
  (nconf_file st, nconf_defaults st).

(** ** The calls, in the order of the source *)

(** Line 153. *)
Definition empty_script : list event := [Ev db_emptydb true].

(** Lines 156 to 176. *)
Definition seed_script : list event :=
  [Ev meta_configs_setOnEmpty true;
   Ev meta_configs_init true;
   Ev groups_cache_reset false;
   Ev posts_cache_reset false;
   Ev cache_reset false;
   Ev uploads_clearCache false;
   Ev (privileges_global_give "registered-users") true;
   Ev (privileges_global_give "guests") true;
   Ev (db_sortedSetAdd "plugins:active") true;
   Ev (meta_themes_set "local" "nodebb-theme-persona") true].

(** Lines 179 to 192. *)
Definition stage_script : list event :=
  [Ev (fs_rm "test/uploads") true;
   Ev (mkdirp "test/uploads") true;
   Ev (mkdirp "test/uploads/category") true;
   Ev (mkdirp "test/uploads/files") true;
   Ev (mkdirp "test/uploads/system") true;
   Ev (mkdirp "test/uploads/profile") true].

Definition reset_script : list event := empty_script ++ seed_script ++ stage_script.

(** Lines 119 to 140. *)
Definition service_script : list event :=
  [Ev db_initSessionStore true;
   Ev meta_dependencies_check true;
   Ev sockets_init true;
   Ev notifications_startJobs false;
   Ev user_startJobs false;
   Ev webserver_listen true].

(** Lines 114 to 117. *)
Definition init_script (createIndices : bool) : list event :=
  Ev db_init true :: (if createIndices then [Ev db_createIndices true] else []).

Definition before_script (createIndices : bool) : list event :=
  init_script createIndices ++ reset_script ++ service_script.


(** The session store, the web listener, the realtime transport and the
    jobs of notifications and of users. *)
Definition dependent_services : list call :=
  [db_initSessionStore; webserver_listen; sockets_init; notifications_startJobs;
   user_startJobs].

(** The starts of the dependent services in a trace. *)
Definition service_starts (t : list event) : list event :=
  filter (λ ev, ev_call ev ∈ dependent_services) t.

(** ** The configuration and the two targets *)

(** What the file configures for a key; [undefined] when it has none. *)
Definition configured (c : gmap string jsval) (key : string) : jsval :=
  default JUndefined (Nconf.defined (c !! key)).

(** What nconf answers for a key once the file and the defaults are
    loaded, for a key with default [dflt]. *)
Definition configured_or (c : gmap string jsval) (key : string) (dflt : jsval) : jsval :=
  default dflt (Nconf.defined (c !! key)).

(** The keys that lines 72 to 74 read. *)
Definition database_keys : list string := ["database.type"; "test_database"; "database"].

(** Two targets agree on a field when both give it the same scalar. *)
Definition agree_on (name : string) (test production : jsval) : Prop :=
  ∃ v, Js.prop test name = Ok v ∧ Js.prop production name = Ok v ∧ Js.is_scalar v = true.

(** Same database name, host and port. *)
Definition same_store_target (test production : jsval) : Prop :=
  agree_on "database" test production ∧
  agree_on "host" test production ∧
  agree_on "port" test production.

(** A target is there when its fields can be read. *)
Definition present (target : jsval) : Prop :=
  target ≠ JUndefined ∧ target ≠ JNull.

(** The production target cannot be read from the configuration. *)
Definition production_unreachable (st : state) (production : jsval) : Prop :=
  ∀ key, Nconf.lookup st key ≠ production.

(** ** The upload directories *)

Fixpoint mkdirp_all (names : list string) (f : gmap (list string) node)
  : result (gmap (list string) node) :=
  match names with
  | [] => Ok f
  | name :: rest =>
      match Fs.mkdirp name f with
      | Ok f' => mkdirp_all rest f'
      | Throw x => Throw x
      end
  end.

(** What lines 179 to 192 do to the directories. *)
Definition staged (f : gmap (list string) node) : result (gmap (list string) node) :=
  match Fs.rm "test/uploads" f with
  | Ok f' => mkdirp_all folders f'
  | Throw x => Throw x
  end.

Definition upload_root : list string := ["test"; "uploads"].

Definition upload_subdirectories : list (list string) :=
  [["test"; "uploads"; "category"]; ["test"; "uploads"; "files"];
   ["test"; "uploads"; "system"]; ["test"; "uploads"; "profile"]].

(** No file at [test] nor at or below [test/uploads]. *)
Definition no_file_in_the_way (f : gmap (list string) node) : Prop :=
  ∀ q, q = ["test"] ∨ upload_root `prefix_of` q → f !! q ≠ Some File.

(** The directories that [mkdirp] makes for a list of paths. *)
Definition made_directories (names : list string) : list (list string) :=
  mjoin ((λ name, Fs.prefixes (Path.relative name)) <$> names).




(** ** The seeding *)

(** The object of defaults.json after the two assignments of lines 199
    and 200. *)
Definition test_defaults (o : gmap string jsval) : gmap string jsval :=
  <["minimumPasswordStrength" := JNum 0]> (<["eventLoopCheckEnabled" := JNum 0]> o).

(** The plugins that line 229 activates. *)
Definition plugin_members (st : state) : list string :=
  default_plugins ++
  (Js.to_string <$>
     (if Js.is_array (Nconf.lookup st "test_plugins")
      then array_items (Nconf.lookup st "test_plugins") else [])).

(** The store after the seeding of lines 156 to 176. *)
Definition seeded_db (defaults : gmap string jsval) (members : list string) (d : db_state)
  : db_state :=
  Store.set_theme "local" "nodebb-theme-persona"
    (Store.sortedSetAdd "plugins:active" members
       (Store.give guests_privileges "guests"
          (Store.give registered_users_privileges "registered-users"
             (Store.setOnEmpty defaults d)))).

(** [meta.config] after the assignments of lines 159 to 162. *)
Definition test_meta_config (loaded : gmap string jsval) : gmap string jsval :=
  <["autoDetectLang" := JNum 0]>
    (<["newbiePostDelay" := JNum 0]>
       (<["initialPostDelay" := JNum 0]>
          (<["postDelay" := JNum 0]> loaded))).

(** ** Sample configurations *)

Definition target (database host : string) (port : Z) : jsval :=
  JObj [("host", JStr host); ("port", JNum port); ("database", JStr database)].

Definition sample_url : url_object :=
  UrlObject (JStr "http:") (JStr "localhost:4567") (JStr "localhost") (JStr "4567")
            (JStr "/").

Definition sample_defaults : gmap string jsval :=
  list_to_map [("postDelay", JNum 10); ("minimumPasswordStrength", JNum 1);
               ("title", JStr "NodeBB")].

Definition sample_config (test production : jsval) : gmap string jsval :=
  list_to_map [("url", JStr "http://localhost:4567"); ("database.type", JStr "redis");
               ("database", production); ("test_database", test)].

(** The module lies in /repo/test/mocks, the tests are run from /repo,
    db.createIndices is defined, meta.configs.init loads what the store
    persists, and no call fails. *)
Definition sample_env (content : gmap string jsval) : env :=
  Env "/repo/test/mocks" "/repo" (Parsed content) (fun _ => sample_url) (JStr "3.8.1")
      (fun file => if String.eqb file "/repo/install/data/defaults.json"
                   then Some sample_defaults else None)
      true db_config (fun _ => false).

Definition separate_content : gmap string jsval :=
  sample_config (target "test" "127.0.0.1" 6379) (target "prod" "127.0.0.1" 6379).

Definition shared_content : gmap string jsval :=
  sample_config (target "prod" "127.0.0.1" 6379) (target "prod" "127.0.0.1" 6379).


Definition no_url_content : gmap string jsval :=
  list_to_map [("database.type", JStr "redis");
               ("database", target "prod" "127.0.0.1" 6379);
               ("test_database", target "test" "127.0.0.1" 6379)].

Definition no_test_database_content : gmap string jsval :=
  list_to_map [("url", JStr "http://localhost:4567"); ("database.type", JStr "redis");
               ("database", target "prod" "127.0.0.1" 6379)].

Definition no_database_content : gmap string jsval :=
  list_to_map [("url", JStr "http://localhost:4567"); ("database.type", JStr "redis");
               ("test_database", target "test" "127.0.0.1" 6379)].

(** Test and production on the same host, with different databases. *)
Definition separate_env : env := sample_env separate_content.

(** Test and production are the same database. *)
Definition shared_env : env := sample_env shared_content.


(** config.json cannot be read. *)
Definition unreadable_env : env :=
  Env "/repo/test/mocks" "/repo" Unreadable (fun _ => sample_url) (JStr "3.8.1")
      (fun _ => None) true db_config (fun _ => false).

(** The settings that [separate_env] resolves to. *)
Definition separate_settings : db_settings :=
  DbSettings (JStr "redis") (target "test" "127.0.0.1" 6379) (target "prod" "127.0.0.1" 6379).

(** An earlier run left a file in a stale directory. *)
Definition stale_fs : gmap (list string) node :=
  list_to_map [(["test"], Dir); (["test"; "uploads"], Dir);
               (["test"; "uploads"; "old"], Dir);
               (["test"; "uploads"; "old"; "a.png"], File)].

(** An earlier run left a configuration and a record in the store. *)
Definition stale_db : db_state :=
  Db (list_to_map [("minimumPasswordStrength", JNum 3); ("postDelay", JNum 10)])
     ∅ ∅ None (list_to_map [("user:1", JStr "alice")]).

(** The state once the module is loaded, before the hook runs. *)
Definition loaded_state : state := (module_top separate_env (cold stale_db stale_fs)).1.

(** ** The keys that the module writes *)

(** The keys of [nconf.defaults] (lines 39 to 45). *)
Definition default_keys : list string :=
  ["base_dir"; "themes_path"; "upload_path"; "views_dir"; "relative_path"].

(** The keys set by lines 50 to 58. *)
Definition derived_keys : list string :=
  ["relative_path"; "asset_base_url"; "upload_path"; "upload_url"; "url_parsed";
   "base_url"; "secure"; "use_port"; "port"].

(** The keys set by lines 63 to 68. *)
Definition cluster_keys : list string :=
  ["socket.io:origins"; "isPrimary"; "isCluster"; "singleHostCluster"].

(** The keys set by the [before] hook before its first call (lines 104
    to 116). *)
Definition hook_settings_keys : list string :=
  ["core_templates_path"; "base_templates_path"; "theme_config"; "bcrypt_rounds";
   "socket.io:origins"; "version"; "runJobs"; "jobsDisabled"].







(** ** What a run that completes needs *)

(** defaults.json can be required: it is in the cache of [require] or
    can be loaded from install/data below base_dir. *)
Definition defaults_available (e : env) (st : state) : Prop :=
  ∃ b file,
    Nconf.lookup st "base_dir" = JStr b ∧
    Path.join [JStr b; JStr "install/data/defaults.json"] = Ok file ∧
    (is_Some (module_cache st !! file) ∨ is_Some (json_files e file)).

(** A configuration with a truthy theme:templates has strings for
    theme:id and theme:templates. *)
Definition theme_paths_joinable (m : gmap string jsval) : Prop :=
  Js.truthy (default JUndefined (m !! "theme:templates")) = true →
  ∃ id templates,
    m !! "theme:id" = Some (JStr id) ∧ m !! "theme:templates" = Some (JStr templates).

(** The key is not in config.json, or is a string there. *)
Definition string_or_absent (c : gmap string jsval) (key : string) : Prop :=
  configured c key = JUndefined ∨ ∃ p, configured c key = JStr p.

(** ** Failures *)

(** A program that fails with the rejection of a call has made this
    call last, and it is the call that the environment lets fail. *)
Definition rejected_last {A} (m : M A) : Prop :=
  ∀ e st st' c,
    m e st = (st', Throw (Rejected c)) →
    ∃ l aw, trace st' = l ++ [Ev c aw] ∧ faults e (length l) = true.

(** ** More sample configurations *)

(** A configuration that does not give the type of the database. *)
Definition no_database_type_content : gmap string jsval :=
  list_to_map [("url", JStr "http://localhost:4567");
               ("database", target "prod" "127.0.0.1" 6379);
               ("test_database", target "test" "127.0.0.1" 6379)].

(** config.json is no JSON. *)
Definition malformed_env : env :=
  Env "/repo/test/mocks" "/repo" Malformed (fun _ => sample_url) (JStr "3.8.1")
      (fun _ => None) true db_config (fun _ => false).

(** As [separate_env], without install/data/defaults.json. *)
Definition no_defaults_env : env :=
  Env "/repo/test/mocks" "/repo" (Parsed separate_content) (fun _ => sample_url)
      (JStr "3.8.1") (fun _ => None) true db_config (fun _ => false).

(** As [separate_env], but the fourth call fails. *)
Definition failing_env : env :=
  Env "/repo/test/mocks" "/repo" (Parsed separate_content) (fun _ => sample_url)
      (JStr "3.8.1")
      (fun file => if String.eqb file "/repo/install/data/defaults.json"
                   then Some sample_defaults else None)
      true db_config (fun n => Nat.eqb n 3).

(** As [separate_env], with a loaded configuration that names a
    directory of templates for the theme. *)
Definition themed_env : env :=
  Env "/repo/test/mocks" "/repo" (Parsed separate_content) (fun _ => sample_url)
      (JStr "3.8.1")
      (fun file => if String.eqb file "/repo/install/data/defaults.json"
                   then Some sample_defaults else None)
      true
      (fun _ => list_to_map [("theme:id", JStr "nodebb-theme-persona");
                             ("theme:templates", JStr "templates")])
      (fun _ => false).

(** * Reasoning about programs *)

Example path_join_up : Path.join [JStr "/repo/test/mocks"; JStr "../.."] = Ok "/repo".
Proof. reflexivity. Qed.

Example path_join_rel : Path.join [JStr "/repo"; JStr "test/uploads"] = Ok "/repo/test/uploads".
Proof. reflexivity. Qed.

Example path_join_dot : Path.join [JStr "/repo"; JStr "./test//uploads"] = Ok "/repo/test/uploads".
Proof. reflexivity. Qed.

Example path_relative : Path.relative "test/uploads/category" = ["test"; "uploads"; "category"].
Proof. reflexivity. Qed.

Section Monad.
Context {A B : Type}.
Implicit Types (m : M A) (k : A → M B).

Lemma bind_ok m k e st st1 a :
  m e st = (st1, Ok a) → bind m k e st = k a e st1.
Proof. intros H. unfold bind. by rewrite H. Qed.

Lemma bind_throw m k e st st1 x :
  m e st = (st1, Throw x) → bind m k e st = (st1, Throw x).
Proof. intros H. unfold bind. by rewrite H. Qed.

Lemma bind_inv m k e st st' b :
  bind m k e st = (st', Ok b) →
  ∃ a st1, m e st = (st1, Ok a) ∧ k a e st1 = (st', Ok b).
Proof.
  unfold bind. destruct (m e st) as [st1 [a|x]]; intros H.
  - by exists a, st1.
  - discriminate.
Qed.

(** A failure of a sequence is a failure of its first part or of the
    rest, run after the first part. *)
Lemma bind_inv_throw m k e st st' x :
  bind m k e st = (st', Throw x) →
  m e st = (st', Throw x) ∨
  ∃ a st1, m e st = (st1, Ok a) ∧ k a e st1 = (st', Throw x).
Proof.
  unfold bind. destruct (m e st) as [st1 [a|y]]; intros H.
  - right. by exists a, st1.
  - left. by simplify_eq.
Qed.
End Monad.

Section Stable.
Context {X : Type} (proj : state → X).

Lemma stable_ret {A} (a : A) : stable proj (ret a).
Proof. by intros e st. Qed.

Lemma stable_throw {A} x : stable proj (@throw A x).
Proof. by intros e st. Qed.

Lemma stable_lift {A} (r : result A) : stable proj (lift r).
Proof. by intros e st. Qed.

Lemma stable_gets {A} (f : env → state → A) : stable proj (gets f).
Proof. by intros e st. Qed.

Lemma stable_bind {A B} (m : M A) (k : A → M B) :
  stable proj m → (∀ a, stable proj (k a)) → stable proj (bind m k).
Proof.
  intros Hm Hk e st. unfold bind. specialize (Hm e st).
  destruct (m e st) as [st1 [a|x]]; simpl in *; [|done].
  by rewrite Hk.
Qed.

Lemma stable_modify (f : state → state) :
  (∀ st, proj (f st) = proj st) → stable proj (modify f).
Proof. intros H e st. apply H. Qed.

Lemma stable_invoke aw c :
  (∀ t st, proj (with_trace t st) = proj st) → stable proj (invoke aw c).
Proof. intros H e st. unfold invoke. by destruct (faults e _); simpl. Qed.

Lemma stable_fs_apply op :
  (∀ f st, proj (with_fs f st) = proj st) → stable proj (fs_apply op).
Proof. intros H e st. unfold fs_apply. by destruct (op _); simpl. Qed.

Lemma stable_require_json file :
  (∀ c st, proj (with_module_cache c st) = proj st) → stable proj (require_json file).
Proof.
  intros H e st. unfold require_json.
  destruct (module_cache st !! file); [done|]. by destruct (json_files e file); simpl.
Qed.

Lemma stable_for_each {A} (l : list A) (body : A → M unit) :
  (∀ x, stable proj (body x)) → stable proj (for_each l body).
Proof.
  intros H. induction l as [|x l IH]; simpl.
  - apply stable_ret.
  - apply stable_bind; [apply H | intros _; apply IH].
Qed.
End Stable.

Section Runs.
Context (e : env).

Lemma runs_silent {A} (m : M A) : stable trace m → runs e m [].
Proof.
  intros H st. exists []. rewrite H, app_nil_r. done.
Qed.

Lemma runs_bind {A B} (m : M A) (k : A → M B) s1 s2 :
  runs e m s1 → (∀ a, runs e (k a) s2) → runs e (bind m k) (s1 ++ s2).
Proof.
  intros Hm Hk st. unfold bind. destruct (Hm st) as (l1 & Ht & Hp & Hf).
  destruct (m e st) as [st1 [a|x]]; simpl in *.
  - destruct (Hk a st1) as (l2 & Ht2 & Hp2 & Hf2).
    rewrite (Hf a eq_refl) in Ht. exists (s1 ++ l2). split_and!.
    + by rewrite Ht2, Ht, app_assoc.
    + by apply prefix_app.
    + intros b Hb. by rewrite (Hf2 b Hb).
  - exists l1. split_and!; [done| |done].
    by apply prefix_app_r.
Qed.

Lemma runs_invoke aw c : runs e (invoke aw c) [Ev c aw].
Proof.
  intros st. exists [Ev c aw]. unfold invoke.
  by destruct (faults e _); simpl.
Qed.

(** A step that makes no call, followed by the rest. *)
Lemma runs_after {A B} (m : M A) (k : A → M B) s :
  stable trace m → (∀ a, runs e (k a) s) → runs e (bind m k) s.
Proof. intros Hm Hk. apply (runs_bind m k [] s); [by apply runs_silent | done]. Qed.

(** A call, followed by the rest. *)
Lemma runs_call {B} aw c (k : unit → M B) s :
  runs e (k tt) s → runs e (bind (invoke aw c) k) (Ev c aw :: s).
Proof.
  intros Hk. apply (runs_bind _ k [Ev c aw] s); [apply runs_invoke | by intros []].
Qed.

Lemma runs_env {A B} (g : env → A) (k : A → M B) s :
  runs e (k (g e)) s → runs e (bind (gets (fun e _ => g e)) k) s.
Proof. intros Hk st. unfold bind, gets. apply Hk. Qed.
End Runs.

Lemma runs_assoc {A B C} e (m : M A) (f : A → M B) (g : B → M C) s :
  runs e (bind m (fun a => bind (f a) g)) s → runs e (bind (bind m f) g) s.
Proof.
  intros H st. specialize (H st). unfold bind in *.
  by destruct (m e st) as [st1 [a|x]].
Qed.

Lemma stable_assoc {X A B C} (proj : state → X) (m : M A) (f : A → M B) (g : B → M C) :
  stable proj (bind m (fun a => bind (f a) g)) → stable proj (bind (bind m f) g).
Proof.
  intros H e st. specialize (H e st). unfold bind in *.
  by destruct (m e st) as [st1 [a|x]].
Qed.

Create HintDb prog discriminated.
#[local] Hint Unfold await sync path_join under_dirname Nconf.get Nconf.set db_apply
  assign_in_module set_meta_config load_config load_nconf parse_url derive_paths
  socket_origins database_config environment_guard use_test_database configure
  resolve_config
  module_top setupDefaultConfigs giveDefaultGlobalPrivileges enableDefaultPlugins
  empty_step seed_steps stage_steps setupMockDefaults service_startup before_hook
  afterAll_callback bootstrap : prog.

(** Steps through a program to show that a projection of the state that
    no step writes is left as it was. *)
Ltac stable_step :=
  lazymatch goal with
  | |- stable _ (bind (bind _ _) _) => apply stable_assoc
  | |- stable _ (bind _ _) => apply stable_bind; [|intros ?]
  | |- stable _ (ret _) => apply stable_ret
  | |- stable _ (throw _) => apply stable_throw
  | |- stable _ (lift _) => apply stable_lift
  | |- stable _ (gets _) => apply stable_gets
  | |- stable _ (modify _) => apply stable_modify; intros ?
  | |- stable _ (invoke _ _) => apply stable_invoke; intros ??
  | |- stable _ (fs_apply _) => apply stable_fs_apply; intros ??
  | |- stable _ (require_json _) => apply stable_require_json; intros ??
  | |- stable _ (for_each _ _) => apply stable_for_each; intros ?
  | |- stable _ (if ?b then _ else _) => destruct b
  | |- stable _ (match ?x with _ => _ end) => destruct x
  end.

Ltac stable_tac := autounfold with prog; repeat stable_step; try reflexivity.

(** Steps through a program to collect the calls it makes. *)
Ltac runs_step :=
  lazymatch goal with
  | |- runs _ (bind (bind _ _) _) _ => apply runs_assoc
  | |- runs _ (bind (invoke _ _) _) _ => apply runs_call
  | |- runs _ (bind (if ?b then _ else _) _) _ => destruct b
  | |- runs _ (bind (match ?x with _ => _ end) _) _ => destruct x
  | |- runs _ (bind _ _) _ => apply runs_after; [by stable_tac | intros ?]
  | |- runs _ (invoke _ _) _ => apply runs_invoke
  | |- runs _ (if ?b then _ else _) _ => destruct b
  | |- runs _ (match ?x with _ => _ end) _ => destruct x
  | |- runs _ _ [] => apply runs_silent; by stable_tac
  end.

Ltac runs_tac := autounfold with prog; simpl for_each; repeat runs_step.

(** ** What is called, and in which order *)

Lemma module_top_silent : stable trace module_top.
Proof. stable_tac. Qed.

Lemma runs_empty_step e : runs e empty_step empty_script.
Proof. runs_tac. Qed.

Lemma runs_seed_steps e : runs e seed_steps seed_script.
Proof. runs_tac. Qed.

Lemma runs_stage_steps e : runs e stage_steps stage_script.
Proof. runs_tac. Qed.

Lemma runs_setupMockDefaults e : runs e setupMockDefaults reset_script.
Proof.
  unfold setupMockDefaults.
  apply runs_bind; [apply runs_empty_step | intros _].
  apply runs_bind; [apply runs_seed_steps | intros _].
  apply runs_stage_steps.
Qed.

Lemma runs_service_startup e : runs e service_startup service_script.
Proof. runs_tac. Qed.

Lemma runs_before_hook e : runs e before_hook (before_script (has_createIndices e)).
Proof.
  unfold before_hook, before_script, init_script.
  repeat runs_step.
  cbn [app]. apply runs_call. apply (runs_env e has_createIndices).
  destruct (has_createIndices e); cbn [app].
  - apply runs_call.
    apply runs_bind; [apply runs_setupMockDefaults | intros _; apply runs_service_startup].
  - apply runs_after; [by stable_tac | intros _].
    apply runs_bind; [apply runs_setupMockDefaults | intros _; apply runs_service_startup].
Qed.

Lemma bind_assoc {A B C} (m : M A) (f : A → M B) (g : B → M C) e st :
  bind (bind m f) g e st = bind m (fun a => bind (f a) g) e st.
Proof. unfold bind. by destruct (m e st) as [st1 [a|x]]. Qed.


Lemma setupMockDefaults_nconf : stable nconf_stores setupMockDefaults.
Proof. stable_tac. Qed.



(** ** Successful runs, step by step *)

Lemma ret_inv {A} (a b : A) e st st' : ret a e st = (st', Ok b) → st' = st ∧ b = a.
Proof. unfold ret. naive_solver. Qed.

Lemma gets_inv {A} (f : env → state → A) e st st' b :
  gets f e st = (st', Ok b) → st' = st ∧ b = f e st.
Proof. unfold gets. naive_solver. Qed.

Lemma modify_inv f e st st' b : modify f e st = (st', Ok b) → st' = f st.
Proof. unfold modify. naive_solver. Qed.

Lemma lift_inv {A} (r : result A) e st st' b :
  lift r e st = (st', Ok b) → st' = st ∧ r = Ok b.
Proof. unfold lift. naive_solver. Qed.

Lemma invoke_inv aw c e st st' b :
  invoke aw c e st = (st', Ok b) →
  st' = with_trace (trace st ++ [Ev c aw]) st ∧ faults e (length (trace st)) = false.
Proof. unfold invoke. destruct (faults e _); naive_solver. Qed.

Lemma fs_apply_inv op e st st' b :
  fs_apply op e st = (st', Ok b) → ∃ f, op (fs st) = Ok f ∧ st' = with_fs f st.
Proof. unfold fs_apply. destruct (op (fs st)) as [f|x]; naive_solver. Qed.

Lemma require_json_inv file e st st' b :
  require_json file e st = (st', Ok b) →
  ∃ o, module_cache st' !! file = Some o ∧
       (st' = st ∨ st' = with_module_cache (<[file := o]> (module_cache st)) st).
Proof.
  unfold require_json. destruct (module_cache st !! file) as [o|] eqn:Hc.
  - intros [= <- _]. exists o. auto.
  - destruct (json_files e file) as [o|]; [|done].
    intros [= <- _]. exists o. simpl. rewrite lookup_insert_eq. auto.
Qed.

(** Takes a successful run apart, one step of the program at a time. *)
Ltac run_inv H :=
  lazymatch type of H with
  | bind (bind _ _) _ _ _ = (_, Ok _) => rewrite bind_assoc in H; run_inv H
  | bind _ _ _ _ = (_, Ok _) =>
      let H1 := fresh "Hstep" in
      apply bind_inv in H as (? & ? & H1 & H); run_inv H1; run_inv H
  | ret _ _ _ = (_, Ok _) => apply ret_inv in H as [-> H]; subst
  | throw _ _ _ = (_, Ok _) => discriminate H
  | gets _ _ _ = (_, Ok _) => apply gets_inv in H as [-> ->]
  | modify _ _ _ = (_, Ok _) => apply modify_inv in H as ->
  | lift _ _ _ = (_, Ok _) => apply lift_inv in H as [-> H]
  | invoke _ _ _ _ = (_, Ok _) => apply invoke_inv in H as [-> H]
  | fs_apply _ _ _ = (_, Ok _) => apply fs_apply_inv in H as (? & H & ->)
  | (if ?b then _ else _) _ _ = (_, Ok _) => destruct b eqn:?; run_inv H
  | (match ?x with _ => _ end) _ _ = (_, Ok _) => destruct x eqn:?; run_inv H
  | _ => idtac
  end.

Lemma nconf_lookup_set_ne st k k' v :
  k' ≠ k →
  Nconf.lookup (with_nconf_file (<[k' := v]> (nconf_file st)) st) k = Nconf.lookup st k.
Proof. intros Hne. unfold Nconf.lookup. simpl. by rewrite lookup_insert_ne. Qed.

Lemma nconf_lookup_set_eq st k v :
  v ≠ JUndefined →
  Nconf.lookup (with_nconf_file (<[k := v]> (nconf_file st)) st) k = v.
Proof.
  intros Hv. unfold Nconf.lookup. simpl. rewrite lookup_insert_eq.
  by destruct v.
Qed.

Ltac stable_key := stable_tac; try (apply nconf_lookup_set_ne; done).

Lemma database_config_inv e st st' s :
  database_config e st = (st', Ok s) →
  st' = st ∧
  s = DbSettings (Nconf.lookup st "database.type") (Nconf.lookup st "test_database")
                 (Nconf.lookup st "database") ∧
  Js.truthy (Nconf.lookup st "test_database") = true.
Proof.
  intros H. unfold database_config, Nconf.get in H. run_inv H.
  split_and!; try done. by apply negb_false_iff.
Qed.

Lemma load_nconf_inv e st st' c :
  config_json e = Parsed c →
  load_nconf e st = (st', Ok tt) →
  nconf_file st' = c ∧
  ∀ key, key ∉ ["base_dir"; "themes_path"; "upload_path"; "views_dir"; "relative_path"] →
         nconf_defaults st' !! key = None.
Proof.
  intros Hc H. unfold load_nconf, under_dirname, path_join in H. 
  run_inv H; simplify_eq. split; [done|].
  intros key Hk. simpl. 
  rewrite !lookup_insert_ne; [done|..]; set_solver.
Qed.

(** ** The guard *)

Lemma strict_eq_true a b :
  Js.strict_eq a b = true ↔ a = b ∧ Js.is_scalar a = true.
Proof.
  destruct a, b; simpl; split; try done; try (by intros [[=] _]); try (by intros [_ [=]]).
  - intros H. apply Bool.eqb_prop in H. by subst.
  - intros [[= ->] _]. apply Bool.eqb_reflx.
  - intros H. apply Z.eqb_eq in H. by subst.
  - intros [[= ->] _]. apply Z.eqb_refl.
  - intros H. apply String.eqb_eq in H. by subst.
  - intros [[= ->] _]. apply String.eqb_refl.
Qed.

Lemma strict_eq_false a b :
  Js.strict_eq a b = false ↔ ¬ (a = b ∧ Js.is_scalar a = true).
Proof. rewrite <- strict_eq_true. by destruct (Js.strict_eq a b). Qed.

Lemma prop_present v name : present v → ∃ w, Js.prop v name = Ok w.
Proof. intros [??]. destruct v; simpl; by eauto. Qed.

Lemma prop_truthy v name : Js.truthy v = true → ∃ w, Js.prop v name = Ok w.
Proof. destruct v; simpl; by eauto. Qed.

Lemma same_target_true t p : same_target t p = Ok true ↔ same_store_target t p.
Proof.
  unfold same_target, same_store_target, agree_on. split.
  - intros H.
    destruct (Js.prop t "database") as [td|]; [|done].
    destruct (Js.prop p "database") as [pd|]; [|done].
    destruct (Js.strict_eq td pd) eqn:Hd; [|done].
    destruct (Js.prop t "host") as [th|]; [|done].
    destruct (Js.prop p "host") as [ph|]; [|done].
    destruct (Js.strict_eq th ph) eqn:Hh; [|done].
    destruct (Js.prop t "port") as [tp|]; [|done].
    destruct (Js.prop p "port") as [pp|]; [|done].
    injection H as Hp.
    apply strict_eq_true in Hd as [-> ?], Hh as [-> ?], Hp as [-> ?].
    naive_solver.
  - intros ((vd & -> & -> & Hd) & (vh & -> & -> & Hh) & (vp & -> & -> & Hp)).
    by rewrite !(proj2 (strict_eq_true _ _)).
Qed.

Lemma same_target_defined t p :
  Js.truthy t = true → present p → ∃ b, same_target t p = Ok b.
Proof.
  intros Ht Hp. unfold same_target.
  destruct (prop_truthy t "database" Ht) as [? ->], (prop_present p "database" Hp) as [? ->].
  destruct (prop_truthy t "host" Ht) as [? ->], (prop_present p "host" Hp) as [? ->].
  destruct (prop_truthy t "port" Ht) as [? ->], (prop_present p "port" Hp) as [? ->].
  repeat case_match; eauto.
Qed.

Lemma same_target_false t p :
  Js.truthy t = true → present p →
  same_target t p = Ok false ↔ ¬ same_store_target t p.
Proof.
  intros Ht Hp. rewrite <- same_target_true.
  destruct (same_target_defined t p Ht Hp) as [b ->]. destruct b; naive_solver.
Qed.

Lemma derive_paths_keeps key :
  key ∈ database_keys → stable (λ st, Nconf.lookup st key) derive_paths.
Proof.
  intros H. repeat (apply elem_of_cons in H as [->|H]); [by stable_key..|].
  by apply elem_of_nil in H.
Qed.

Lemma socket_origins_keeps key u :
  key ∈ database_keys → stable (λ st, Nconf.lookup st key) (socket_origins u).
Proof.
  intros H. repeat (apply elem_of_cons in H as [->|H]); [by stable_key..|].
  by apply elem_of_nil in H.
Qed.

Lemma configure_lookup e st0 st1 c key :
  config_json e = Parsed c →
  configure e st0 = (st1, Ok tt) →
  key ∈ database_keys →
  Nconf.lookup st1 key = configured c key.
Proof.
  intros Hc H Hkey. unfold configure in H.
  apply bind_inv in H as (_ & sta & _ & H).
  apply bind_inv in H as ([] & stb & Hb & H).
  destruct (load_nconf_inv _ _ _ _ Hc Hb) as [Hf Hd].
  apply bind_inv in H as (u & stc & Hu & Ho).
  pose proof (derive_paths_keeps key Hkey e stb) as H1.
  pose proof (socket_origins_keeps key u Hkey e stc) as H2.
  rewrite Hu in H1. rewrite Ho in H2.
  cbn [fst] in H1, H2. rewrite H2, H1. unfold Nconf.lookup, configured.
  rewrite Hf, Hd; [by destruct (Nconf.defined (c !! key))|].
  unfold database_keys in Hkey. set_solver.
Qed.

Lemma resolve_config_settings e st0 st1 s c :
  config_json e = Parsed c →
  resolve_config e st0 = (st1, Ok s) →
  s = DbSettings (configured c "database.type") (configured c "test_database")
                 (configured c "database") ∧
  Js.truthy (configured c "test_database") = true.
Proof.
  intros Hc H. unfold resolve_config in H.
  apply bind_inv in H as ([] & st' & Hconf & H).
  apply database_config_inv in H as (-> & -> & Ht).
  rewrite <- !(configure_lookup _ _ _ _ _ Hc Hconf) by (unfold database_keys; set_solver).
  done.
Qed.

Lemma module_top_db : stable db module_top.
Proof. stable_tac. Qed.

Lemma resolve_config_state e st0 st1 s :
  resolve_config e st0 = (st1, Ok s) →
  Js.truthy (testDbConfig s) = true ∧
  productionDbConfig s = Nconf.lookup st1 "database".
Proof.
  intros H. unfold resolve_config in H.
  apply bind_inv in H as (_ & st' & _ & H).
  by apply database_config_inv in H as (-> & -> & Ht).
Qed.

Lemma environment_guard_same s e st :
  same_target (testDbConfig s) (productionDbConfig s) = Ok true →
  environment_guard s e st = (st, Throw unsafe_environment).
Proof. intros H. unfold environment_guard, bind, lift. by rewrite H. Qed.

Lemma environment_guard_differ s e st :
  same_target (testDbConfig s) (productionDbConfig s) = Ok false →
  environment_guard s e st = (st, Ok tt).
Proof. intros H. unfold environment_guard, bind, lift. by rewrite H. Qed.

Lemma environment_guard_inv s e st st' :
  environment_guard s e st = (st', Ok tt) →
  st' = st ∧ same_target (testDbConfig s) (productionDbConfig s) = Ok false.
Proof.
  intros H. unfold environment_guard in H. run_inv H. done.
Qed.

Lemma module_top_inv e st0 st2 :
  module_top e st0 = (st2, Ok tt) →
  ∃ st1 s,
    resolve_config e st0 = (st1, Ok s) ∧
    same_target (testDbConfig s) (productionDbConfig s) = Ok false ∧
    st2 = with_nconf_file (<[database_key (dbType s) := testDbConfig s]> (nconf_file st1)) st1.
Proof.
  intros H. unfold module_top in H.
  apply bind_inv in H as (s & st1 & Hr & H).
  apply bind_inv in H as ([] & st1' & Hg & H).
  apply environment_guard_inv in Hg as [-> Hg].
  unfold use_test_database, Nconf.set in H. apply modify_inv in H.
  by exists st1, s.
Qed.

(** C2. Once the configuration is resolved and the production target is
    there, the top level of the module fails with the error of the guard
    if and only if the test target and the production target have the
    same database name, the same host and the same port; and it
    completes, so that the [before] hook is registered and the bootstrap
    goes on, if and only if they differ in at least one of the three. *)
Theorem guard_fails_iff_same_target (e : env) (st0 st1 : state) (s : db_settings) :
  resolve_config e st0 = (st1, Ok s) →
  present (productionDbConfig s) →
  (same_store_target (testDbConfig s) (productionDbConfig s) ↔
     module_top e st0 = (st1, Throw unsafe_environment)) ∧
  (¬ same_store_target (testDbConfig s) (productionDbConfig s) ↔
     ∃ st2, module_top e st0 = (st2, Ok tt)).
Proof.
  intros Hr Hp. destruct (resolve_config_state _ _ _ _ Hr) as [Ht _].
  assert (module_top e st0 =
          bind (environment_guard s) (fun _ => use_test_database s) e st1) as Htop
    by (unfold module_top; by rewrite (bind_ok _ _ _ _ _ _ Hr)).
  rewrite Htop.
  destruct (same_target (testDbConfig s) (productionDbConfig s)) as [[]|x] eqn:Hs.
  - rewrite (bind_throw _ _ _ _ _ _ (environment_guard_same s e st1 Hs)).
    apply same_target_true in Hs. split; split; try done.
    intros [st2 [=]].
  - rewrite (bind_ok _ _ _ _ _ _ (environment_guard_differ s e st1 Hs)).
    apply same_target_false in Hs; [|done..]. split; split; try done.
    intros _. by eexists.
  - destruct (same_target_defined _ _ Ht Hp) as [b Hb]. congruence.
Qed.

Lemma bootstrap_top_throws e st st' x :
  module_top e st = (st', Throw x) → bootstrap e st = (st', Throw x).
Proof. intros H. unfold bootstrap. by rewrite (bind_throw _ _ _ _ _ _ H). Qed.

(** C1. From a cold start: when the test target and the production
    target that the file configures have the same database name, host
    and port, the bootstrap fails without having made any call, so
    db.emptydb is never called and the store is as it was; the error is
    the one of the guard whenever the configuration itself resolved.
    And on every run in which db.emptydb is called, the configuration
    was resolved and the comparison of the guard was evaluated, with
    result false, before. *)
Theorem guard_before_emptydb (e : env) (d : db_state) (f : gmap (list string) node) :
  (∀ c, config_json e = Parsed c →
        same_store_target (configured c "test_database") (configured c "database") →
        ∃ st x, bootstrap e (cold d f) = (st, Throw x) ∧
                trace st = [] ∧ db st = d ∧
                ((∃ st1 s, resolve_config e (cold d f) = (st1, Ok s)) →
                 x = unsafe_environment)) ∧
  (Ev db_emptydb true ∈ trace (bootstrap e (cold d f)).1 →
   ∃ st1 s, resolve_config e (cold d f) = (st1, Ok s) ∧
            same_target (testDbConfig s) (productionDbConfig s) = Ok false).
Proof.
  pose proof (module_top_silent e (cold d f)) as Htr.
  pose proof (module_top_db e (cold d f)) as Hdb.
  change (trace (cold d f)) with (@nil event) in Htr.
  change (db (cold d f)) with d in Hdb.
  split.
  - intros c Hc Hsame. apply same_target_true in Hsame.
    assert (∀ st1 s, resolve_config e (cold d f) = (st1, Ok s) →
                     same_target (testDbConfig s) (productionDbConfig s) = Ok true) as Hres.
    { intros st1 s Hr. by destruct (resolve_config_settings _ _ _ _ _ Hc Hr) as [-> _]. }
    destruct (module_top e (cold d f)) as [st [[]|x]] eqn:Htop;
      cbn [fst] in Htr, Hdb.
    + apply module_top_inv in Htop as (st1 & s & Hr & Hs & _).
      rewrite (Hres _ _ Hr) in Hs. discriminate.
    + exists st, x. split_and!; [by apply bootstrap_top_throws|done..|].
      intros (st1 & s & Hr).
      unfold module_top in Htop. rewrite (bind_ok _ _ _ _ _ _ Hr) in Htop.
      rewrite (bind_throw _ _ _ _ _ _ (environment_guard_same s e st1 (Hres _ _ Hr)))
        in Htop.
      congruence.
  - destruct (module_top e (cold d f)) as [st [[]|x]] eqn:Htop; cbn [fst] in Htr.
    + intros _. apply module_top_inv in Htop as (st1 & s & Hr & Hs & _). eauto.
    + rewrite (bootstrap_top_throws _ _ _ _ Htop). cbn [fst]. rewrite Htr.
      intros H. by apply elem_of_nil in H.
Qed.

(** ** The order of the service starts *)

(** C4, as amended. After the seeding, the [before] hook starts the
    session store, has the dependencies checked, starts the realtime
    transport, then the jobs of notifications and of users, which it
    does not await, and the web listener last; every awaited call
    completes before the next begins.  The calls of the hook are those
    of db.init (and db.createIndices when defined), of the reset, and
    these, in that order; all of them when the hook completes and a
    prefix of them when a call fails.  So when the hook completes the
    dependent services were started in the order session store,
    realtime transport, jobs of notifications, jobs of users, web
    listener. *)
Theorem services_start_after_seeding (e : env) (st : state) :
  ∃ l, trace (before_hook e st).1 = trace st ++ l ∧
       l `prefix_of`
         init_script (has_createIndices e) ++
         (empty_script ++ seed_script ++ stage_script) ++
         [Ev db_initSessionStore true;
          Ev meta_dependencies_check true;
          Ev sockets_init true;
          Ev notifications_startJobs false;
          Ev user_startJobs false;
          Ev webserver_listen true] ∧
       (∀ a, (before_hook e st).2 = Ok a →
             l = init_script (has_createIndices e) ++
                 (empty_script ++ seed_script ++ stage_script) ++
                 [Ev db_initSessionStore true;
                  Ev meta_dependencies_check true;
                  Ev sockets_init true;
                  Ev notifications_startJobs false;
                  Ev user_startJobs false;
                  Ev webserver_listen true] ∧
             service_starts l
             = [Ev db_initSessionStore true; Ev sockets_init true;
                Ev notifications_startJobs false; Ev user_startJobs false;
                Ev webserver_listen true]).
Proof.
  destruct (runs_before_hook e st) as (l & Ht & Hp & Hf).
  exists l. split_and!; [done..|].
  intros a Ha. specialize (Hf a Ha). split; [done|].
  rewrite Hf. unfold before_script. by destruct (has_createIndices e).
Qed.

(** ** The upload directories after staging *)

Lemma invoke_ok aw c e st :
  no_faults e → invoke aw c e st = (with_trace (trace st ++ [Ev c aw]) st, Ok tt).
Proof. intros H. unfold invoke. by rewrite H. Qed.

Lemma mkdir_loop_inv names e st st' :
  for_each names (fun folder => await (mkdirp folder);; fs_apply (Fs.mkdirp folder)) e st
  = (st', Ok tt) →
  mkdirp_all names (fs st) = Ok (fs st').
Proof.
  revert st. induction names as [|name rest IH]; intros st H; simpl in H.
  - by apply ret_inv in H as [-> _].
  - apply bind_inv in H as ([] & st1 & H1 & H).
    unfold await in H1. run_inv H1. cbn [fs with_trace] in H1.
    apply IH in H. cbn [fs with_fs] in H. simpl. by rewrite H1.
Qed.

Lemma mkdir_loop_ok names e st f' :
  no_faults e →
  mkdirp_all names (fs st) = Ok f' →
  ∃ st', for_each names (fun folder => await (mkdirp folder);; fs_apply (Fs.mkdirp folder))
           e st = (st', Ok tt) ∧ fs st' = f'.
Proof.
  intros He. revert st. induction names as [|name rest IH]; intros st H; simpl in *.
  - exists st. split; [done | congruence].
  - destruct (Fs.mkdirp name (fs st)) as [f1|] eqn:H1; [|done].
    destruct (IH (with_fs f1 (with_trace (trace st ++ [Ev (mkdirp name) true]) st)) H)
      as (st' & Hrun & Hfs).
    exists st'. split; [|done].
    unfold await. rewrite bind_assoc.
    rewrite (bind_ok _ _ _ _ _ _ (invoke_ok _ _ e st He)).
    unfold bind at 1, fs_apply. cbn [fs with_trace]. by rewrite H1.
Qed.

Lemma stage_steps_inv e st st' :
  stage_steps e st = (st', Ok tt) → staged (fs st) = Ok (fs st').
Proof.
  intros H. unfold stage_steps in H.
  apply bind_inv in H as ([] & st1 & H1 & H). unfold await in H1. run_inv H1.
  apply bind_inv in H as ([] & st2 & H2 & H). run_inv H2. cbn [fs with_trace] in H2.
  apply mkdir_loop_inv in H. cbn [fs with_fs] in H.
  unfold staged. by rewrite H2.
Qed.

Lemma stage_steps_ok e st f' :
  no_faults e → staged (fs st) = Ok f' →
  ∃ st', stage_steps e st = (st', Ok tt) ∧ fs st' = f'.
Proof.
  intros He H. unfold staged in H.
  destruct (Fs.rm "test/uploads" (fs st)) as [f1|] eqn:H1; [|done].
  destruct (mkdir_loop_ok folders e
              (with_fs f1 (with_trace (trace st ++ [Ev (fs_rm "test/uploads") true]) st))
              f' He H) as (st' & Hrun & Hfs).
  exists st'. split; [|done].
  unfold stage_steps, await.
  rewrite (bind_ok _ _ _ _ _ _ (invoke_ok _ _ e st He)).
  unfold bind at 1, fs_apply. cbn [fs with_trace]. by rewrite H1.
Qed.

Lemma mkdir_fold_lookup (ds : list (list string)) (f : gmap (list string) node) q :
  foldr (λ d acc, <[d := Dir]> acc) f ds !! q
  = if bool_decide (q ∈ ds) then Some Dir else f !! q.
Proof.
  induction ds as [|d ds IH]; simpl.
  - done.
  - destruct (decide (d = q)) as [->|Hne].
    + rewrite lookup_insert_eq. rewrite bool_decide_eq_true_2; [done | by left].
    + rewrite lookup_insert_ne by done. rewrite IH.
      case_bool_decide as H1; case_bool_decide as H2; try done.
      * exfalso. apply H2. by right.
      * exfalso. apply elem_of_cons in H2 as [->|?]; done.
Qed.

Lemma mkdirp_lookup name f f' q :
  Fs.mkdirp name f = Ok f' →
  f' !! q = if bool_decide (q ∈ Fs.prefixes (Path.relative name)) then Some Dir else f !! q.
Proof.
  unfold Fs.mkdirp. destruct (existsb _ _); [done|].
  intros [= <-]. apply mkdir_fold_lookup.
Qed.

Lemma rm_lookup name f f' q :
  Fs.rm name f = Ok f' →
  f' !! q = if bool_decide (Path.relative name `prefix_of` q) then None else f !! q.
Proof.
  unfold Fs.rm. destruct (existsb _ _); [done|].
  intros [= <-]. case_bool_decide as Hp.
  - apply map_lookup_filter_None. right. intros x _ Hn. by apply Hn.
  - destruct (f !! q) as [x|] eqn:Hq.
    + by apply map_lookup_filter_Some.
    + apply map_lookup_filter_None. by left.
Qed.

Lemma existsb_is_file_false (f : gmap (list string) node) (ds : list (list string)) :
  (∀ d, d ∈ ds → f !! d ≠ Some File) → existsb (Fs.is_file f) ds = false.
Proof.
  intros H. destruct (existsb _ _) eqn:E; [|done].
  apply existsb_exists in E as (d & Hin & Hd). apply list_elem_of_In in Hin.
  specialize (H d Hin). unfold Fs.is_file in Hd. by destruct (f !! d) as [[]|].
Qed.

Lemma mkdirp_all_ok names f :
  (∀ name d, name ∈ names → d ∈ Fs.prefixes (Path.relative name) →
             d = ["test"] ∨ upload_root `prefix_of` d) →
  no_file_in_the_way f →
  ∃ f', mkdirp_all names f = Ok f'.
Proof.
  revert f. induction names as [|name rest IH]; intros f Hn Hf; simpl.
  - by eexists.
  - assert (existsb (Fs.is_file f) (Fs.prefixes (Path.relative name)) = false) as He.
    { apply existsb_is_file_false. intros d Hd. apply Hf. apply (Hn name); [by left|done]. }
    destruct (Fs.mkdirp name f) as [f1|x] eqn:H1.
    + apply IH.
      * intros n d Hin. apply Hn. by right.
      * intros q Hq. rewrite (mkdirp_lookup _ _ _ q H1).
        case_bool_decide; [done | by apply Hf].
    + unfold Fs.mkdirp in H1. by rewrite He in H1.
Qed.

Lemma relative_folders :
  Path.relative <$> folders = upload_root :: upload_subdirectories.
Proof. reflexivity. Qed.

Lemma staged_total f : f !! ["test"] ≠ Some File → ∃ f', staged f = Ok f'.
Proof.
  intros Ht. unfold staged.
  assert (existsb (Fs.is_file f) (removelast (Fs.prefixes (Path.relative "test/uploads")))
          = false) as He.
  { apply existsb_is_file_false. intros d Hd.
    change (removelast _) with [["test"]] in Hd. apply list_elem_of_singleton in Hd. by subst. }
  destruct (Fs.rm "test/uploads" f) as [f1|x] eqn:H1.
  - apply mkdirp_all_ok.
    + intros name d Hname Hd. unfold folders in Hname.
      repeat (apply elem_of_cons in Hname as [->|Hname]);
        [..|by apply elem_of_nil in Hname];
        vm_compute Fs.prefixes in Hd;
        repeat (apply elem_of_cons in Hd as [->|Hd]);
        try (by apply elem_of_nil in Hd); try (by left);
        right; apply (bool_decide_unpack _); by vm_compute.
    + intros q Hq. rewrite (rm_lookup _ _ _ q H1).
      change (Path.relative "test/uploads") with upload_root.
      case_bool_decide as Hp; [done|].
      destruct Hq as [->|Hq]; done.
  - unfold Fs.rm in H1. by rewrite He in H1.
Qed.

Lemma mkdirp_all_lookup names f f' q :
  mkdirp_all names f = Ok f' →
  f' !! q = if bool_decide (q ∈ made_directories names) then Some Dir else f !! q.
Proof.
  revert f. induction names as [|name rest IH]; intros f H; simpl in H.
  - injection H as <-. by rewrite bool_decide_eq_false_2 by apply not_elem_of_nil.
  - destruct (Fs.mkdirp name f) as [f1|x] eqn:H1; [|done].
    rewrite (IH _ H), (mkdirp_lookup _ _ _ q H1).
    unfold made_directories. rewrite fmap_cons. simpl mjoin.
    fold (made_directories rest).
    repeat case_bool_decide; try done; exfalso; set_solver.
Qed.

Lemma staged_lookup f f' q :
  staged f = Ok f' →
  f' !! q = if bool_decide (q ∈ made_directories folders) then Some Dir
            else if bool_decide (upload_root `prefix_of` q) then None
                 else f !! q.
Proof.
  unfold staged. destruct (Fs.rm "test/uploads" f) as [f1|x] eqn:H1; [|done].
  intros H. by rewrite (mkdirp_all_lookup _ _ _ q H), (rm_lookup _ _ _ q H1).
Qed.

Lemma made_directories_folders q :
  q ∈ made_directories folders ↔ q = ["test"] ∨ q = upload_root ∨ q ∈ upload_subdirectories.
Proof.
  vm_compute made_directories. unfold upload_root, upload_subdirectories.
  rewrite !elem_of_cons, !elem_of_nil. naive_solver.
Qed.

Lemma prefix_of_subdirectory p q :
  p ∈ upload_subdirectories → p `prefix_of` q →
  upload_root `prefix_of` q ∧ (q ∈ made_directories folders → q = p).
Proof.
  intros Hp Hpq. split.
  - etrans; [|done]. unfold upload_subdirectories in Hp.
    repeat (apply elem_of_cons in Hp as [->|Hp]); [..|by apply elem_of_nil in Hp];
      by apply (bool_decide_unpack _).
  - intros Hq. apply made_directories_folders in Hq.
    unfold upload_root, upload_subdirectories in *. destruct Hpq as [k ->].
    repeat (apply elem_of_cons in Hp as [->|Hp]); [..|by apply elem_of_nil in Hp];
      destruct Hq as [Hq|[Hq|Hq]]; try discriminate;
      repeat (apply elem_of_cons in Hq as [Hq|Hq]); try (by apply elem_of_nil in Hq);
      by simplify_eq.
Qed.

(** C5, as amended. Staging completes whenever no call fails and [test]
    is not a regular file.  Whenever it completes, whatever was there
    before, every path of the list is a directory, each of the four
    subdirectories is empty, and test/uploads holds these four
    subdirectories and nothing else. *)
Theorem staging_leaves_listed_directories (e : env) (st : state) :
  (no_faults e → fs st !! ["test"] ≠ Some File →
   ∃ st', stage_steps e st = (st', Ok tt)) ∧
  (∀ st', stage_steps e st = (st', Ok tt) →
     (∀ p, p ∈ Path.relative <$> folders → fs st' !! p = Some Dir) ∧
     (∀ p, p ∈ upload_subdirectories → Fs.empty_dir (fs st') p) ∧
     (∀ q, upload_root `prefix_of` q → q ≠ upload_root → fs st' !! q ≠ None →
           q ∈ upload_subdirectories)).
Proof.
  split.
  - intros He Ht. destruct (staged_total (fs st) Ht) as [f' Hf'].
    destruct (stage_steps_ok e st f' He Hf') as (st' & Hrun & _). by exists st'.
  - intros st' Hrun. apply stage_steps_inv in Hrun.
    assert (∀ p, p ∈ Path.relative <$> folders → fs st' !! p = Some Dir) as Hdirs.
    { intros p Hp. rewrite (staged_lookup _ _ p Hrun).
      rewrite bool_decide_eq_true_2; [done|].
      apply made_directories_folders. rewrite relative_folders in Hp.
      apply elem_of_cons in Hp as [->|Hp]; auto. }
    split_and!; [done| |].
    + intros p Hp. split.
      * apply Hdirs. rewrite relative_folders. by right.
      * intros q Hpq Hne. destruct (prefix_of_subdirectory p q Hp Hpq) as [Hroot Hq].
        rewrite (staged_lookup _ _ q Hrun).
        case_bool_decide as Hm; [by apply Hq in Hm|].
        by rewrite bool_decide_eq_true_2.
    + intros q Hroot Hne Hq. rewrite (staged_lookup _ _ q Hrun) in Hq.
      case_bool_decide as Hm.
      * apply made_directories_folders in Hm as [->|[->|Hm]]; [|done..].
        destruct Hroot as [k Hk]. discriminate.
      * by rewrite bool_decide_eq_true_2 in Hq.
Qed.

(** ** Seeding *)

Lemma state_eta st :
  State (nconf_file st) (nconf_defaults st) (module_cache st) (meta_config st) (db st)
        (fs st) (trace st) = st.
Proof. by destruct st. Qed.

Lemma require_json_cache file e st st' b :
  require_json file e st = (st', Ok b) →
  ∃ o, st' = with_module_cache (<[file := o]> (module_cache st)) st ∧
       (module_cache st !! file = Some o ∨
        module_cache st !! file = None ∧ json_files e file = Some o).
Proof.
  unfold require_json. destruct (module_cache st !! file) as [o|] eqn:Hc.
  - intros [= <- _]. exists o. split; [|by left].
    unfold with_module_cache. rewrite insert_id by done. by rewrite state_eta.
  - destruct (json_files e file) as [o|]; [|done].
    intros [= <- _]. exists o. split; [done | by right].
Qed.

Lemma alter_test_defaults file o (cache : gmap string (gmap string jsval)) :
  alter (insert "minimumPasswordStrength" (JNum 0)) file
    (alter (insert "eventLoopCheckEnabled" (JNum 0)) file (<[file := o]> cache))
  = <[file := test_defaults o]> cache.
Proof.
  apply map_eq. intros k. destruct (decide (file = k)) as [->|Hne].
  - by rewrite !lookup_alter_eq, !lookup_insert_eq.
  - by rewrite !lookup_alter_ne, !lookup_insert_ne.
Qed.

Lemma setupDefaultConfigs_inv e st st' :
  setupDefaultConfigs e st = (st', Ok tt) →
  ∃ file o,
    Path.join [Nconf.lookup st "base_dir"; JStr "install/data/defaults.json"] = Ok file ∧
    (module_cache st !! file = Some o ∨
     module_cache st !! file = None ∧ json_files e file = Some o) ∧
    st' = with_db (Store.setOnEmpty (test_defaults o) (db st))
            (with_trace (trace st ++ [Ev meta_configs_setOnEmpty true])
               (with_module_cache (<[file := test_defaults o]> (module_cache st)) st)).
Proof.
  intros H. autounfold with prog in H.
  apply bind_inv in H as (base & st1 & H1 & H). run_inv H1.
  apply bind_inv in H as (file & st2 & H2 & H). run_inv H2.
  apply bind_inv in H as ([] & st3 & H3 & H).
  apply require_json_cache in H3 as (o & -> & Ho).
  run_inv H. exists file, o. split_and!; [done..|].
  unfold module_object. cbn [module_cache with_module_cache with_trace].
  rewrite alter_test_defaults, lookup_insert_eq. cbn [default from_option].
  reflexivity.
Qed.

(** As [run_inv], but every state gets a name and an equation of its
    own. *)
Ltac run_steps H :=
  lazymatch type of H with
  | bind (bind _ _) _ _ _ = (_, Ok _) => rewrite bind_assoc in H; run_steps H
  | bind _ _ _ _ = (_, Ok _) =>
      let H1 := fresh "Hstep" in
      apply bind_inv in H as (? & ? & H1 & H); run_steps H1; run_steps H
  | ret _ _ _ = (_, Ok _) => apply ret_inv in H as [-> H]; subst
  | throw _ _ _ = (_, Ok _) => discriminate H
  | gets _ _ _ = (_, Ok _) => apply gets_inv in H as [-> H]
  | modify _ _ _ = (_, Ok _) => apply modify_inv in H
  | lift _ _ _ = (_, Ok _) => apply lift_inv in H as [-> H]
  | invoke _ _ _ _ = (_, Ok _) => apply invoke_inv in H as [H _]
  | (if ?b then _ else _) _ _ = (_, Ok _) => destruct b eqn:?; run_steps H
  | (match ?x with _ => _ end) _ _ = (_, Ok _) => destruct x eqn:?; run_steps H
  | _ => idtac
  end.

(** Reads a component of a state through the equations of [run_steps]. *)
Ltac read_state :=
  cbn [nconf_file nconf_defaults module_cache meta_config db fs trace nconf_stores
       with_nconf_file with_nconf_defaults with_module_cache with_meta_config
       with_db with_fs with_trace];
  repeat match goal with
         | H : ?s = _ |- context [?s] =>
             is_var s; rewrite H;
             cbn [nconf_file nconf_defaults module_cache meta_config db fs trace
                  nconf_stores
                  with_nconf_file with_nconf_defaults with_module_cache with_meta_config
                  with_db with_fs with_trace]
         end.

Lemma seed_steps_inv e st st' :
  seed_steps e st = (st', Ok tt) →
  ∃ file o,
    Path.join [Nconf.lookup st "base_dir"; JStr "install/data/defaults.json"] = Ok file ∧
    (module_cache st !! file = Some o ∨
     module_cache st !! file = None ∧ json_files e file = Some o) ∧
    module_cache st' = <[file := test_defaults o]> (module_cache st) ∧
    db st' = seeded_db (test_defaults o) (plugin_members st) (db st) ∧
    meta_config st'
    = test_meta_config (configs_loaded e (Store.setOnEmpty (test_defaults o) (db st))) ∧
    nconf_stores st' = nconf_stores st ∧
    fs st' = fs st.
Proof.
  intros H. unfold seed_steps in H.
  apply bind_inv in H as ([] & st1 & H1 & H).
  apply setupDefaultConfigs_inv in H1 as (file & o & Hfile & Ho & Hst1).
  autounfold with prog in H. run_steps H.
  exists file, o.
  split_and!; [done..| | | | |]; unfold plugin_members, Nconf.lookup in *; by read_state.
Qed.

Lemma empty_step_inv e st st' :
  empty_step e st = (st', Ok tt) →
  st' = with_db db_empty (with_trace (trace st ++ [Ev db_emptydb true]) st).
Proof. intros H. autounfold with prog in H. by run_inv H. Qed.

Lemma stage_steps_keeps : stable (λ st, (db st, meta_config st, module_cache st)) stage_steps.
Proof. stable_tac. Qed.

(** ** Seeding twice *)

Lemma add_member_elem l m x : x ∈ Store.add_member l m ↔ x ∈ l ∨ x = m.
Proof.
  unfold Store.add_member. case_bool_decide as H.
  - split; [by left|]. by intros [?| ->].
  - rewrite elem_of_app, list_elem_of_singleton. done.
Qed.

Lemma add_members_elem ms l x :
  x ∈ fold_left Store.add_member ms l ↔ x ∈ l ∨ x ∈ ms.
Proof.
  revert l. induction ms as [|m ms IH]; intros l; simpl.
  - rewrite elem_of_nil. naive_solver.
  - rewrite IH, add_member_elem, elem_of_cons. naive_solver.
Qed.

Lemma add_members_present ms l :
  (∀ m, m ∈ ms → m ∈ l) → fold_left Store.add_member ms l = l.
Proof.
  revert l. induction ms as [|m ms IH]; intros l H; simpl; [done|].
  assert (Store.add_member l m = l) as ->.
  { unfold Store.add_member. rewrite bool_decide_eq_true_2; [done|]. apply H. by left. }
  apply IH. intros x Hx. apply H. by right.
Qed.

Lemma add_members_twice ms l :
  fold_left Store.add_member ms (fold_left Store.add_member ms l)
  = fold_left Store.add_member ms l.
Proof. apply add_members_present. intros m Hm. apply add_members_elem. by right. Qed.

Lemma union_twice (c defaults : gmap string jsval) :
  (c ∪ defaults) ∪ defaults = c ∪ defaults.
Proof.
  apply map_eq. intros k. rewrite !lookup_union.
  by destruct (c !! k), (defaults !! k).
Qed.

Lemma db_ext d1 d2 :
  db_config d1 = db_config d2 → db_privileges d1 = db_privileges d2 →
  db_sorted_sets d1 = db_sorted_sets d2 → db_theme d1 = db_theme d2 →
  db_records d1 = db_records d2 → d1 = d2.
Proof. destruct d1, d2; simpl; by intros -> -> -> -> ->. Qed.

Lemma seeded_db_config defaults members d :
  db_config (seeded_db defaults members d) = db_config d ∪ defaults.
Proof. reflexivity. Qed.

Lemma seeded_db_privileges defaults members d :
  db_privileges (seeded_db defaults members d)
  = db_privileges d
    ∪ list_to_set ((λ p, (p, "registered-users")) <$> registered_users_privileges)
    ∪ list_to_set ((λ p, (p, "guests")) <$> guests_privileges).
Proof. reflexivity. Qed.

Lemma seeded_db_sorted_sets defaults members d :
  db_sorted_sets (seeded_db defaults members d)
  = <["plugins:active" :=
        fold_left Store.add_member members
          (default [] (db_sorted_sets d !! "plugins:active"))]> (db_sorted_sets d).
Proof. reflexivity. Qed.

Lemma seeded_db_theme defaults members d :
  db_theme (seeded_db defaults members d) = Some ("local", "nodebb-theme-persona").
Proof. reflexivity. Qed.

Lemma seeded_db_records defaults members d :
  db_records (seeded_db defaults members d) = db_records d.
Proof. reflexivity. Qed.

Lemma union_twice_set (P A B : gset (string * string)) : P ∪ A ∪ B ∪ A ∪ B = P ∪ A ∪ B.
Proof. set_solver. Qed.

Lemma seeded_db_twice defaults members d :
  seeded_db defaults members (seeded_db defaults members d) = seeded_db defaults members d.
Proof.
  apply db_ext.
  - rewrite !seeded_db_config. apply union_twice.
  - rewrite !seeded_db_privileges. apply union_twice_set.
  - rewrite !seeded_db_sorted_sets.
    rewrite lookup_insert_eq, insert_insert_eq. cbn [from_option id].
    by rewrite add_members_twice.
  - by rewrite !seeded_db_theme.
  - by rewrite !seeded_db_records.
Qed.

Lemma test_defaults_twice o : test_defaults (test_defaults o) = test_defaults o.
Proof.
  unfold test_defaults. apply map_eq. intros k.
  destruct (decide (k = "minimumPasswordStrength")) as [->|H1];
    [by rewrite !lookup_insert_eq|].
  destruct (decide (k = "eventLoopCheckEnabled")) as [->|H2]; by simplify_map_eq.
Qed.

Lemma nconf_stores_lookup st st' key :
  nconf_stores st' = nconf_stores st → Nconf.lookup st' key = Nconf.lookup st key.
Proof. unfold nconf_stores, Nconf.lookup. by intros [= -> ->]. Qed.

(** C7. When the seeding of lines 156 to 176 is run twice in a row and
    completes both times, the second run changes nothing in the store:
    the persisted configuration with its defaults, the privileges
    granted to registered-users and guests, and the active plugins are
    the ones the first run left (the store as a whole is the same). *)
Theorem seeding_twice_is_seeding_once (e : env) (st st1 st2 : state) :
  seed_steps e st = (st1, Ok tt) →
  seed_steps e st1 = (st2, Ok tt) →
  db_config (db st2) = db_config (db st1) ∧
  db_privileges (db st2) = db_privileges (db st1) ∧
  Store.plugins_active (db st2) = Store.plugins_active (db st1) ∧
  db st2 = db st1.
Proof.
  intros H1 H2.
  apply seed_steps_inv in H1 as (file & o & Hfile & _ & Hcache & Hdb & _ & Hnconf & _).
  apply seed_steps_inv in H2 as (file2 & o2 & Hfile2 & Ho2 & _ & Hdb2 & _).
  rewrite (nconf_stores_lookup _ _ _ Hnconf), Hfile in Hfile2. injection Hfile2 as <-.
  rewrite Hcache, lookup_insert_eq in Ho2.
  assert (o2 = test_defaults o) as -> by (destruct Ho2 as [[= <-]|[[=] _]]; done).
  assert (plugin_members st1 = plugin_members st) as Hm
    by (unfold plugin_members; by rewrite (nconf_stores_lookup _ _ _ Hnconf)).
  assert (db st2 = db st1) as Heq.
  { rewrite Hdb2, Hm, test_defaults_twice, Hdb. apply seeded_db_twice. }
  unfold Store.plugins_active. by rewrite Heq.
Qed.

(** C6. Whenever [setupMockDefaults] completes, whatever the store, the
    configuration in memory and defaults.json held before: the post
    delays of [meta.config] (postDelay, initialPostDelay, newbiePostDelay)
    are 0, whatever meta.configs.init has loaded; the object of
    defaults.json has password strength 0 and the event loop check off,
    whatever the file says; and the configuration persisted in the
    store, emptied just before, is exactly this object, so it has
    password strength 0 too. *)
Theorem test_overrides_always_apply (e : env) (st st' : state) :
  setupMockDefaults e st = (st', Ok tt) →
  meta_config st' !! "postDelay" = Some (JNum 0) ∧
  meta_config st' !! "initialPostDelay" = Some (JNum 0) ∧
  meta_config st' !! "newbiePostDelay" = Some (JNum 0) ∧
  (∃ file defaults,
     module_cache st' !! file = Some defaults ∧
     defaults !! "minimumPasswordStrength" = Some (JNum 0) ∧
     defaults !! "eventLoopCheckEnabled" = Some (JNum 0) ∧
     db_config (db st') = defaults) ∧
  db_config (db st') !! "minimumPasswordStrength" = Some (JNum 0) ∧
  db_config (db st') !! "eventLoopCheckEnabled" = Some (JNum 0).
Proof.
  intros H. unfold setupMockDefaults in H.
  apply bind_inv in H as ([] & st1 & H1 & H). apply empty_step_inv in H1 as ->.
  apply bind_inv in H as ([] & st2 & H2 & H).
  apply seed_steps_inv in H2 as (file & o & _ & _ & Hcache & Hdb & Hmeta & _).
  pose proof (stage_steps_keeps e st2) as Hkeep. rewrite H in Hkeep.
  cbn [fst] in Hkeep. injection Hkeep as -> -> ->.
  rewrite Hdb, Hmeta, Hcache. cbn [db with_db with_trace].
  rewrite seeded_db_config. change (db_config db_empty) with (∅ : gmap string jsval).
  rewrite (left_id_L ∅ (∪)). unfold test_meta_config.
  split_and!; try (unfold test_defaults; by simplify_map_eq).
  exists file, (test_defaults o). rewrite lookup_insert_eq.
  split_and!; try done; unfold test_defaults; by simplify_map_eq.
Qed.

(** ** Failures of the configuration *)

Lemma bind_gets {A B} (f : env → state → A) (k : A → M B) e st :
  bind (gets f) k e st = k (f e st) e st.
Proof. reflexivity. Qed.

Lemma bind_modify {B} (f : state → state) (k : unit → M B) e st :
  bind (modify f) k e st = k tt e (f st).
Proof. reflexivity. Qed.

Lemma path_join_strings a b : ∃ p, Path.join [JStr a; JStr b] = Ok p.
Proof.
  unfold Path.join. simpl.
  destruct (String.eqb a ""), (String.eqb b ""); simpl; by eexists.
Qed.

Lemma under_dirname_ok rel e st : ∃ p, under_dirname rel e st = (st, Ok p).
Proof.
  unfold under_dirname, bind, gets, path_join, lift.
  destruct (path_join_strings (dirname e) rel) as [p ->]. by exists p.
Qed.

Lemma load_config_unreadable e st :
  config_json e = Unreadable → ∃ file, load_config e st = (st, Throw (FsError file)).
Proof.
  intros Hc. unfold load_config.
  destruct (under_dirname_ok "../../config.json" e st) as [file Hf].
  exists file. rewrite (bind_ok _ _ _ _ _ _ Hf). unfold bind, gets. by rewrite Hc.
Qed.

Lemma load_config_parsed e st c :
  config_json e = Parsed c → load_config e st = (st, Ok tt).
Proof.
  intros Hc. unfold load_config.
  destruct (under_dirname_ok "../../config.json" e st) as [file Hf].
  rewrite (bind_ok _ _ _ _ _ _ Hf). unfold bind, gets. by rewrite Hc.
Qed.

Lemma load_nconf_parsed e st c :
  config_json e = Parsed c → ∃ st', load_nconf e st = (st', Ok tt).
Proof.
  intros Hc. unfold load_nconf.
  destruct (under_dirname_ok "../../config.json" e st) as [file Hf].
  rewrite (bind_ok _ _ _ _ _ _ Hf).
  rewrite bind_gets, Hc, bind_modify.
  destruct (under_dirname_ok "../.." e (with_nconf_file c st)) as [p1 H1].
  rewrite (bind_ok _ _ _ _ _ _ H1).
  destruct (under_dirname_ok "../../node_modules" e (with_nconf_file c st)) as [p2 H2].
  rewrite (bind_ok _ _ _ _ _ _ H2).
  destruct (under_dirname_ok "../../build/public/templates" e (with_nconf_file c st))
    as [p3 H3].
  rewrite (bind_ok _ _ _ _ _ _ H3). by eexists.
Qed.

Lemma parse_url_absent e st :
  Nconf.lookup st "url" = JUndefined →
  parse_url e st = (st, Throw (Js.invalid_arg_type "url" JUndefined)).
Proof. intros H. unfold parse_url, bind, Nconf.get, gets. by rewrite H. Qed.

Lemma configure_url_absent e st c :
  config_json e = Parsed c →
  configured c "url" = JUndefined →
  ∃ st', configure e st = (st', Throw (Js.invalid_arg_type "url" JUndefined)) ∧
         nconf_file st' = c.
Proof.
  intros Hc Hu. unfold configure.
  rewrite (bind_ok _ _ _ _ _ _ (load_config_parsed e st c Hc)).
  destruct (load_nconf_parsed e st c Hc) as [stb Hb].
  rewrite (bind_ok _ _ _ _ _ _ Hb).
  destruct (load_nconf_inv _ _ _ _ Hc Hb) as [Hf Hd].
  assert (Nconf.lookup stb "url" = JUndefined) as Hl.
  { unfold Nconf.lookup. unfold configured in Hu. rewrite Hf.
    destruct (Nconf.defined (c !! "url")); [done|].
    rewrite Hd; [done | set_solver]. }
  exists stb. split; [|done]. apply bind_throw. unfold derive_paths. apply bind_throw.
  by apply parse_url_absent.
Qed.

Lemma database_config_absent e st :
  Nconf.lookup st "test_database" = JUndefined →
  database_config e st = (st, Throw (Error "Test database is not defined in config.json")).
Proof. intros H. unfold database_config, bind, Nconf.get, gets. by rewrite H. Qed.

Lemma module_top_throws_silently e st st' x :
  module_top e st = (st', Throw x) →
  bootstrap e st = (st', Throw x) ∧ trace st' = trace st.
Proof.
  intros H. split; [by apply bootstrap_top_throws|].
  pose proof (module_top_silent e st) as Ht. by rewrite H in Ht.
Qed.

(** ** The upload path *)


Lemma load_nconf_upload_default e st st' c :
  config_json e = Parsed c →
  load_nconf e st = (st', Ok tt) →
  Nconf.lookup st' "upload_path" = configured_or c "upload_path" (JStr "test/uploads").
Proof.
  intros Hc H. unfold load_nconf, under_dirname, path_join in H.
  run_inv H; simplify_eq. unfold Nconf.lookup, configured_or. cbn.
  by destruct (Nconf.defined (c !! "upload_path")).
Qed.

Lemma database_key_not_database t : database_key t ≠ "database".
Proof. unfold database_key. simpl. discriminate. Qed.



(** ** The configured database *)

Lemma before_hook_keeps_database_key t :
  stable (λ st, Nconf.lookup st (database_key t)) before_hook.
Proof.
  stable_tac; apply nconf_lookup_set_ne; unfold database_key; simpl; discriminate.
Qed.

(** C9, as amended. Once the guard has passed, the key database.<type>
    holds the test target, and neither the [before] hook nor a reset
    changes it, so that a store that takes its connection from this key
    addresses the test target from then on.  The production target is
    still in the configuration, under the key [database], as it was
    read. *)
Theorem test_database_configured (e : env) (st0 st1 : state) :
  module_top e st0 = (st1, Ok tt) →
  ∃ s, (∃ st', resolve_config e st0 = (st', Ok s)) ∧
       Nconf.lookup st1 (database_key (dbType s)) = testDbConfig s ∧
       Nconf.lookup (before_hook e st1).1 (database_key (dbType s)) = testDbConfig s ∧
       (∀ st, Nconf.lookup (afterAll_callback e st).1 (database_key (dbType s))
              = Nconf.lookup st (database_key (dbType s))) ∧
       Nconf.lookup st1 "database" = productionDbConfig s.
Proof.
  intros H. apply module_top_inv in H as (st' & s & Hr & _ & ->).
  destruct (resolve_config_state _ _ _ _ Hr) as [Ht Hp].
  assert (Nconf.lookup
            (with_nconf_file (<[database_key (dbType s) := testDbConfig s]> (nconf_file st'))
               st') (database_key (dbType s)) = testDbConfig s) as Hkey.
  { apply nconf_lookup_set_eq. intros Hu. by rewrite Hu in Ht. }
  exists s. split_and!.
  - by exists st'.
  - done.
  - by rewrite (before_hook_keeps_database_key (dbType s) e).
  - intros st. apply nconf_stores_lookup, setupMockDefaults_nconf.
  - rewrite nconf_lookup_set_ne by apply database_key_not_database. done.
Qed.


(** ** The theorems at the sample configurations *)

Lemma run_ok {A} (r : state * result A) a : r.2 = Ok a → r = (r.1, Ok a).
Proof. destruct r as [st x]. simpl. by intros ->. Qed.

Lemma shared_same_target :
  same_store_target (configured shared_content "test_database")
                    (configured shared_content "database").
Proof.
  split_and!; [exists (JStr "prod") | exists (JStr "127.0.0.1") | exists (JNum 6379)];
    by vm_compute.
Defined.

Lemma guard_before_emptydb_witness :
  (bootstrap shared_env (cold stale_db stale_fs)).2 = Throw unsafe_environment ∧
  (∃ st x, bootstrap shared_env (cold stale_db stale_fs) = (st, Throw x) ∧
           trace st = [] ∧ db st = stale_db ∧
           ((∃ st1 s, resolve_config shared_env (cold stale_db stale_fs) = (st1, Ok s)) →
            x = unsafe_environment)) ∧
  (∃ st1 s, resolve_config separate_env (cold stale_db stale_fs) = (st1, Ok s) ∧
            same_target (testDbConfig s) (productionDbConfig s) = Ok false).
Proof.
  split_and!.
  - by vm_compute.
  - apply (proj1 (guard_before_emptydb shared_env stale_db stale_fs) shared_content eq_refl).
    exact shared_same_target.
  - apply (proj2 (guard_before_emptydb separate_env stale_db stale_fs)).
    apply (bool_decide_unpack _). by vm_compute.
Defined.

Lemma guard_fails_iff_same_target_witness :
  (same_store_target (testDbConfig separate_settings) (productionDbConfig separate_settings) ↔
     module_top separate_env (cold stale_db stale_fs)
     = ((resolve_config separate_env (cold stale_db stale_fs)).1, Throw unsafe_environment)) ∧
  (¬ same_store_target (testDbConfig separate_settings)
                       (productionDbConfig separate_settings) ↔
     ∃ st2, module_top separate_env (cold stale_db stale_fs) = (st2, Ok tt)).
Proof.
  apply (guard_fails_iff_same_target separate_env (cold stale_db stale_fs)).
  - apply run_ok. by vm_compute.
  - by split.
Defined.

Lemma staging_witness :
  ∃ st', stage_steps separate_env (cold stale_db stale_fs) = (st', Ok tt) ∧
         (∀ p, p ∈ Path.relative <$> folders → fs st' !! p = Some Dir) ∧
         (∀ p, p ∈ upload_subdirectories → Fs.empty_dir (fs st') p) ∧
         (∀ q, upload_root `prefix_of` q → q ≠ upload_root → fs st' !! q ≠ None →
               q ∈ upload_subdirectories).
Proof.
  destruct (proj1 (staging_leaves_listed_directories separate_env (cold stale_db stale_fs)))
    as [st' H].
  - intros n. reflexivity.
  - by vm_compute.
  - exists st'. split; [exact H|].
    exact (proj2 (staging_leaves_listed_directories separate_env (cold stale_db stale_fs))
                 st' H).
Defined.

Lemma test_overrides_witness :
  let st' := (setupMockDefaults separate_env loaded_state).1 in
  meta_config st' !! "postDelay" = Some (JNum 0) ∧
  meta_config st' !! "initialPostDelay" = Some (JNum 0) ∧
  meta_config st' !! "newbiePostDelay" = Some (JNum 0) ∧
  (∃ file defaults,
     module_cache st' !! file = Some defaults ∧
     defaults !! "minimumPasswordStrength" = Some (JNum 0) ∧
     defaults !! "eventLoopCheckEnabled" = Some (JNum 0) ∧
     db_config (db st') = defaults) ∧
  db_config (db st') !! "minimumPasswordStrength" = Some (JNum 0) ∧
  db_config (db st') !! "eventLoopCheckEnabled" = Some (JNum 0).
Proof.
  apply (test_overrides_always_apply separate_env loaded_state).
  apply run_ok. by vm_compute.
Defined.

Lemma seeding_twice_witness :
  let st1 := (seed_steps separate_env loaded_state).1 in
  let st2 := (seed_steps separate_env st1).1 in
  db_config (db st2) = db_config (db st1) ∧
  db_privileges (db st2) = db_privileges (db st1) ∧
  Store.plugins_active (db st2) = Store.plugins_active (db st1) ∧
  db st2 = db st1.
Proof.
  apply (seeding_twice_is_seeding_once separate_env loaded_state);
    apply run_ok; by vm_compute.
Defined.

Lemma test_database_configured_witness :
  ∃ s, (∃ st', resolve_config separate_env (cold stale_db stale_fs) = (st', Ok s)) ∧
       Nconf.lookup loaded_state (database_key (dbType s)) = testDbConfig s ∧
       Nconf.lookup (before_hook separate_env loaded_state).1 (database_key (dbType s))
       = testDbConfig s ∧
       (∀ st, Nconf.lookup (afterAll_callback separate_env st).1 (database_key (dbType s))
              = Nconf.lookup st (database_key (dbType s))) ∧
       Nconf.lookup loaded_state "database" = productionDbConfig s.
Proof.
  apply (test_database_configured separate_env (cold stale_db stale_fs) loaded_state).
  unfold loaded_state. apply run_ok. by vm_compute.
Defined.


(** ** Where the code departs from a claim *)

(** C4 as stated fails: in the run of the bootstrap at the sample
    configuration, which completes, the dependent services are not
    started in the order session store, web listener, realtime
    transport, jobs, each awaited: the listener comes last and the jobs
    are not awaited. *)
Lemma listener_starts_last :
  (bootstrap separate_env (cold stale_db stale_fs)).2 = Ok tt ∧
  service_starts (trace (bootstrap separate_env (cold stale_db stale_fs)).1)
  = [Ev db_initSessionStore true; Ev sockets_init true; Ev notifications_startJobs false;
     Ev user_startJobs false; Ev webserver_listen true] ∧
  service_starts (trace (bootstrap separate_env (cold stale_db stale_fs)).1)
  ≠ (λ c, Ev c true) <$> dependent_services.
Proof. split_and!; by vm_compute. Qed.

(** C5 as stated fails: after a staging that completes, test/uploads is
    not empty, it holds the four subdirectories. *)
Lemma upload_root_not_empty :
  (stage_steps separate_env (cold stale_db stale_fs)).2 = Ok tt ∧
  ¬ (∀ p, p ∈ Path.relative <$> folders →
          Fs.empty_dir (fs (stage_steps separate_env (cold stale_db stale_fs)).1) p).
Proof.
  split; [by vm_compute|]. intros H.
  destruct (H upload_root) as [_ Hempty]; [by left|].
  specialize (Hempty ["test"; "uploads"; "category"]).
  assert (fs (stage_steps separate_env (cold stale_db stale_fs)).1
             !! ["test"; "uploads"; "category"] = Some Dir) as Hd by (by vm_compute).
  rewrite Hempty in Hd; [done| |done].
  by exists ["category"].
Qed.

(** C9 as stated fails: after the bootstrap at the sample configuration,
    which completes, the production target can still be read from the
    configuration, under the key [database]. *)
Lemma production_still_configured :
  (bootstrap separate_env (cold stale_db stale_fs)).2 = Ok tt ∧
  ¬ production_unreachable (bootstrap separate_env (cold stale_db stale_fs)).1
      (target "prod" "127.0.0.1" 6379).
Proof.
  split; [by vm_compute|]. intros H. apply (H "database"). by vm_compute.
Qed.


(** * Further properties of the module *)

(** Decides a closed statement, such as that a key is not in a list. *)
Ltac decided := apply (bool_decide_unpack _); by vm_compute.

(** ** Failed runs, step by step *)

Lemma invoke_inv_throw aw c e st st' x :
  invoke aw c e st = (st', Throw x) →
  st' = with_trace (trace st ++ [Ev c aw]) st ∧ x = Rejected c ∧
  faults e (length (trace st)) = true.
Proof. unfold invoke. destruct (faults e _); naive_solver. Qed.

Lemma lift_inv_throw {A} (r : result A) e st st' x :
  lift r e st = (st', Throw x) → st' = st ∧ r = Throw x.
Proof. unfold lift. naive_solver. Qed.

Lemma throw_inv {A} x e st st' y :
  @throw A x e st = (st', Throw y) → st' = st ∧ y = x.
Proof. unfold throw. naive_solver. Qed.

(** As [run_steps], keeping the equation of every state also past a
    [ret]. *)
Ltac run_eqs H :=
  lazymatch type of H with
  | bind (bind _ _) _ _ _ = (_, Ok _) => rewrite bind_assoc in H; run_eqs H
  | bind _ _ _ _ = (_, Ok _) =>
      let H1 := fresh "Hstep" in
      apply bind_inv in H as (? & ? & H1 & H); run_eqs H1; run_eqs H
  | ret _ _ _ = (_, Ok _) => apply ret_inv in H as [H ?]
  | throw _ _ _ = (_, Ok _) => discriminate H
  | gets _ _ _ = (_, Ok _) => apply gets_inv in H as [-> H]
  | modify _ _ _ = (_, Ok _) => apply modify_inv in H
  | lift _ _ _ = (_, Ok _) => apply lift_inv in H as [-> H]
  | invoke _ _ _ _ = (_, Ok _) => apply invoke_inv in H as [H _]
  | (if ?b then _ else _) _ _ = (_, Ok _) => destruct b eqn:?; run_eqs H
  | (match ?x with _ => _ end) _ _ = (_, Ok _) => destruct x eqn:?; run_eqs H
  | _ => idtac
  end.

(** Takes a failed run apart: one case for every step that can have
    failed, with the equations of the states before it. *)
Ltac throw_leaf H :=
  lazymatch type of H with
  | ret _ _ _ = (_, Throw _) => unfold ret in H; discriminate H
  | gets _ _ _ = (_, Throw _) => unfold gets in H; discriminate H
  | modify _ _ _ = (_, Throw _) => unfold modify in H; discriminate H
  | throw _ _ _ = (_, Throw _) => apply throw_inv in H as [-> H]
  | lift _ _ _ = (_, Throw _) => apply lift_inv_throw in H as [-> H]
  | invoke _ _ _ _ = (_, Throw _) => apply invoke_inv_throw in H as (-> & -> & H)
  | _ => idtac
  end.

Ltac throw_steps H :=
  lazymatch type of H with
  | bind (bind _ _) _ _ _ = (_, Throw _) => rewrite bind_assoc in H; throw_steps H
  | bind _ _ _ _ = (_, Throw _) =>
      let H1 := fresh "Hstep" in
      apply bind_inv_throw in H as [H | (? & ? & H1 & H)];
      [throw_steps H | run_eqs H1; throw_steps H]
  | (if ?b then _ else _) _ _ = (_, Throw _) => destruct b eqn:?; throw_steps H
  | (match ?x with _ => _ end) _ _ = (_, Throw _) => destruct x eqn:?; throw_steps H
  | _ => throw_leaf H
  end.

Lemma lookup_with_trace t st k : Nconf.lookup (with_trace t st) k = Nconf.lookup st k.
Proof. reflexivity. Qed.

Lemma lookup_with_db d st k : Nconf.lookup (with_db d st) k = Nconf.lookup st k.
Proof. reflexivity. Qed.

Lemma lookup_with_fs f st k : Nconf.lookup (with_fs f st) k = Nconf.lookup st k.
Proof. reflexivity. Qed.

Lemma lookup_with_meta_config m st k :
  Nconf.lookup (with_meta_config m st) k = Nconf.lookup st k.
Proof. reflexivity. Qed.

Lemma lookup_with_module_cache m st k :
  Nconf.lookup (with_module_cache m st) k = Nconf.lookup st k.
Proof. reflexivity. Qed.

(** Fails on the equation of a state. *)
Ltac not_state_eq H :=
  lazymatch type of H with
  | @eq state _ _ => fail
  | _ => idtac
  end.

(** Replaces the values read by the equations that define them, the
    states apart. *)
Ltac subst_values :=
  repeat match goal with
         | Hx : ?x = _ |- _ => is_var x; not_state_eq Hx; subst x
         end.

Ltac read_hyps p :=
  repeat match goal with
         | Hs : ?s = _, Hx : context [p ?s] |- _ =>
             is_var s; not_state_eq Hx; rewrite Hs in Hx;
             cbn [nconf_file nconf_defaults module_cache meta_config db fs trace
                  with_nconf_file with_nconf_defaults with_module_cache
                  with_meta_config with_db with_fs with_trace] in Hx
         end.

(** Reads configuration keys and the other components of the states in
    the hypotheses through the equations of the states. *)
Ltac read_keys :=
  repeat match goal with
         | Hs : ?s = _, Hx : context [Nconf.lookup ?s _] |- _ =>
             is_var s; rewrite Hs in Hx;
             try first [ rewrite nconf_lookup_set_ne in Hx by done
                       | rewrite lookup_with_trace in Hx
                       | rewrite lookup_with_db in Hx
                       | rewrite lookup_with_fs in Hx
                       | rewrite lookup_with_meta_config in Hx
                       | rewrite lookup_with_module_cache in Hx ]
         end;
  read_hyps meta_config; read_hyps module_cache; read_hyps fs.

Ltac bool_hyps :=
  repeat match goal with
         | H : negb _ = true |- _ => apply Bool.negb_true_iff in H
         | H : negb _ = false |- _ => apply Bool.negb_false_iff in H
         end.

(** Reads a component of a state through the equations of the states. *)
Ltac read_proj p :=
  repeat match goal with
         | |- context [p ?s] =>
             is_var s;
             match goal with
             | H : s = _ |- _ =>
                 rewrite H;
                 cbn [nconf_file nconf_defaults module_cache meta_config db fs trace
                      with_nconf_file with_nconf_defaults with_module_cache
                      with_meta_config with_db with_fs with_trace]
             end
         end.

Ltac read_file := read_proj nconf_file.

(** Reads a configuration key of a state in the goal, down to the first
    state that sets it. *)
Ltac read_lookup :=
  repeat match goal with
         | |- context [Nconf.lookup ?s _] =>
             is_var s;
             match goal with
             | H : s = _ |- _ =>
                 rewrite H;
                 try first [ rewrite nconf_lookup_set_ne by done
                           | rewrite lookup_with_trace
                           | rewrite lookup_with_db
                           | rewrite lookup_with_fs
                           | rewrite lookup_with_meta_config
                           | rewrite lookup_with_module_cache ]
             end
         end.

(** ** The keys that are left alone *)

Lemma derive_paths_frame key :
  key ∉ derived_keys → stable (λ st, Nconf.lookup st key) derive_paths.
Proof.
  intros Hk. stable_tac; apply nconf_lookup_set_ne; intros ?; subst key; apply Hk;
    unfold derived_keys; set_solver.
Qed.

Lemma socket_origins_frame key u :
  key ∉ cluster_keys → stable (λ st, Nconf.lookup st key) (socket_origins u).
Proof.
  intros Hk. stable_tac; apply nconf_lookup_set_ne; intros ?; subst key; apply Hk;
    unfold cluster_keys; set_solver.
Qed.


Lemma load_nconf_lookup e st st' c key :
  config_json e = Parsed c →
  load_nconf e st = (st', Ok tt) →
  key ∉ default_keys →
  Nconf.lookup st' key = configured c key.
Proof.
  intros Hc H Hk. destruct (load_nconf_inv _ _ _ _ Hc H) as [Hf Hd].
  unfold Nconf.lookup, configured. rewrite Hf, (Hd key Hk).
  by destruct (Nconf.defined (c !! key)).
Qed.

(** The stages of a load of the module that completes. *)
Lemma module_top_stages e st0 st1 c :
  config_json e = Parsed c →
  module_top e st0 = (st1, Ok tt) →
  ∃ sta stb stc std u s,
    load_nconf e sta = (stb, Ok tt) ∧
    derive_paths e stb = (stc, Ok u) ∧
    socket_origins u e stc = (std, Ok tt) ∧
    resolve_config e st0 = (std, Ok s) ∧
    st1 = with_nconf_file (<[database_key (dbType s) := testDbConfig s]> (nconf_file std)) std.
Proof.
  intros Hc H. apply module_top_inv in H as (std & s & Hr & _ & ->).
  pose proof Hr as Hr'. unfold resolve_config in Hr'.
  apply bind_inv in Hr' as ([] & st2 & Hconf & Hdb).
  apply database_config_inv in Hdb as (Heq & _ & _). subst st2.
  unfold configure in Hconf.
  apply bind_inv in Hconf as (_ & sta & _ & Hconf).
  apply bind_inv in Hconf as ([] & stb & Hb & Hconf).
  apply bind_inv in Hconf as (u & stc & Hu & Ho).
  by exists sta, stb, stc, std, u, s.
Qed.

(** After the load, a key that the top level does not write reads as
    after line 45. *)
Lemma module_top_keeps e st0 st1 c key :
  config_json e = Parsed c →
  module_top e st0 = (st1, Ok tt) →
  key ∉ derived_keys → key ∉ cluster_keys → (∀ t, key ≠ database_key t) →
  ∃ sta stb, load_nconf e sta = (stb, Ok tt) ∧ Nconf.lookup st1 key = Nconf.lookup stb key.
Proof.
  intros Hc H Hd Hcl Hk.
  destruct (module_top_stages _ _ _ _ Hc H) as (sta & stb & stc & std & u & s & Hb & Hu & Ho & _ & ->).
  exists sta, stb. split; [done|].
  pose proof (derive_paths_frame key Hd e stb) as H1.
  pose proof (socket_origins_frame key u Hcl e stc) as H2.
  rewrite Hu in H1. rewrite Ho in H2. cbn [fst] in H1, H2.
  rewrite nconf_lookup_set_ne by (intros Heq; by apply (Hk (dbType s))).
  by rewrite H2, H1.
Qed.

(** No key written by a literal name below is of the form
    database.<type>. *)
Ltac not_database_key :=
  let t := fresh in
  intros t; unfold database_key; cbn [String.append]; discriminate.

Lemma module_top_after_derive e st0 st1 c :
  config_json e = Parsed c →
  module_top e st0 = (st1, Ok tt) →
  ∃ stb stc std u,
    (∀ key, key ∉ default_keys → Nconf.lookup stb key = configured c key) ∧
    derive_paths e stb = (stc, Ok u) ∧
    socket_origins u e stc = (std, Ok tt) ∧
    (∀ key, key ∉ cluster_keys → (∀ t, key ≠ database_key t) →
            Nconf.lookup st1 key = Nconf.lookup stc key) ∧
    (∀ key, (∀ t, key ≠ database_key t) → Nconf.lookup st1 key = Nconf.lookup std key).
Proof.
  intros Hc H.
  destruct (module_top_stages _ _ _ _ Hc H)
    as (sta & stb & stc & std & u & s & Hb & Hu & Ho & _ & ->).
  exists stb, stc, std, u. split_and!; [|done..| |].
  - intros key Hk. by apply (load_nconf_lookup e sta).
  - intros key Hcl Hk.
    pose proof (socket_origins_frame key u Hcl e stc) as H2.
    rewrite Ho in H2. cbn [fst] in H2.
    rewrite nconf_lookup_set_ne by (intros Heq; by apply (Hk (dbType s))).
    done.
  - intros key Hk.
    by rewrite nconf_lookup_set_ne by (intros Heq; by apply (Hk (dbType s))).
Qed.

(** ** The keys derived from the url *)

Lemma derive_paths_values e st st' u :
  derive_paths e st = (st', Ok u) →
  ∃ s,
    Nconf.lookup st "url" = JStr s ∧ u = url_parse e s ∧
    nconf_file st' !! "relative_path"
    = Some (if negb (Js.strict_eq (pathname u) (JStr "/")) then pathname u else JStr "") ∧
    nconf_file st' !! "asset_base_url"
    = Some (JStr (Js.to_string (if negb (Js.strict_eq (pathname u) (JStr "/"))
                                then pathname u else JStr "") +:+ "/assets")) ∧
    nconf_file st' !! "secure" = Some (JBool (Js.strict_eq (protocol u) (JStr "https:"))) ∧
    nconf_file st' !! "use_port" = Some (JBool (Js.truthy (port u))) ∧
    nconf_file st' !! "port"
    = Some (Js.or (Js.or (port u) (Nconf.lookup st "port")) (JNum 4567)).
Proof.
  intros H. autounfold with prog in H. run_eqs H.
  exists s. read_keys. subst u.
  repeat match goal with Hx : ?x = url_parse _ _ |- _ => subst x end.
  split_and!; [done | done | ..]; read_file;
    repeat (rewrite lookup_insert_ne by done); rewrite lookup_insert_eq; congruence.
Qed.

Lemma lookup_file_defined st key v :
  nconf_file st !! key = Some v → v ≠ JUndefined → Nconf.lookup st key = v.
Proof. intros H Hv. unfold Nconf.lookup. rewrite H. by destruct v. Qed.

Lemma or_truthy a b : Js.truthy b = true → Js.truthy (Js.or a b) = true.
Proof. intros Hb. unfold Js.or. by destruct (Js.truthy a) eqn:Ha. Qed.

Lemma truthy_defined v : Js.truthy v = true → v ≠ JUndefined.
Proof. by intros H ->. Qed.

(** X1. The port that the application listens on.  When the module has
    loaded, the key port holds the port of the parsed url if that is
    truthy, else the port of config.json if that is truthy, else 4567;
    so it is truthy in every case, and use_port tells whether the url
    had a port. *)
Theorem port_precedence (e : env) (st0 st1 : state) (c : gmap string jsval) :
  config_json e = Parsed c →
  module_top e st0 = (st1, Ok tt) →
  ∃ s, configured c "url" = JStr s ∧
       Nconf.lookup st1 "port"
       = Js.or (Js.or (port (url_parse e s)) (configured c "port")) (JNum 4567) ∧
       Js.truthy (Nconf.lookup st1 "port") = true ∧
       Nconf.lookup st1 "use_port" = JBool (Js.truthy (port (url_parse e s))).
Proof.
  intros Hc H.
  destruct (module_top_after_derive _ _ _ _ Hc H)
    as (stb & stc & std & u & Hload & Hu & _ & Hkeep & _).
  apply derive_paths_values in Hu as (s & Hurl & -> & _ & _ & _ & Huse & Hport).
  rewrite !Hload in * by decided.
  assert (Js.truthy (Js.or (Js.or (port (url_parse e s)) (configured c "port")) (JNum 4567))
          = true) as Ht by by apply or_truthy.
  exists s. rewrite !Hkeep by (decided || not_database_key).
  rewrite (lookup_file_defined _ _ _ Hport) by by apply truthy_defined.
  by rewrite (lookup_file_defined _ _ _ Huse).
Qed.

(** X2. The path that the forum is served under.  When the module has
    loaded with a url whose path is a string, relative_path is that
    path, or the empty string when the path is /, and asset_base_url is
    relative_path followed by /assets. *)
Theorem relative_path_of_url (e : env) (st0 st1 : state) (c : gmap string jsval)
    (s p : string) :
  config_json e = Parsed c →
  module_top e st0 = (st1, Ok tt) →
  configured c "url" = JStr s →
  pathname (url_parse e s) = JStr p →
  Nconf.lookup st1 "relative_path" = JStr (if String.eqb p "/" then "" else p) ∧
  Nconf.lookup st1 "asset_base_url"
  = JStr ((if String.eqb p "/" then "" else p) +:+ "/assets").
Proof.
  intros Hc H Hs Hp.
  destruct (module_top_after_derive _ _ _ _ Hc H)
    as (stb & stc & std & u & Hload & Hu & _ & Hkeep & _).
  apply derive_paths_values in Hu as (s' & Hurl & -> & Hrel & Hasset & _).
  rewrite Hload in Hurl by decided.
  assert (s' = s) as -> by congruence.
  rewrite Hp in Hrel, Hasset. cbn [Js.strict_eq] in Hrel, Hasset.
  rewrite !Hkeep by (decided || not_database_key).
  rewrite (lookup_file_defined _ _ _ Hrel), (lookup_file_defined _ _ _ Hasset)
    by by destruct (String.eqb p "/").
  by destruct (String.eqb p "/").
Qed.

(** ** Socket.io origins and cluster settings *)

Lemma strict_eq_undefined v : Js.strict_eq v JUndefined = true ↔ v = JUndefined.
Proof. by destruct v. Qed.

Lemma socket_origins_values u e st st' :
  socket_origins u e st = (st', Ok tt) →
  nconf_file st' !! "socket.io:origins"
  = Some (Js.or (Nconf.lookup st "socket.io:origins")
                (JStr (Js.to_string (protocol u) +:+ "//" +:+
                       Js.to_string (Js.or (Nconf.lookup st "cookieDomain") (hostname u))
                       +:+ ":*"))) ∧
  (Nconf.lookup st "isCluster" = JUndefined →
   nconf_file st' !! "isPrimary" = Some (JBool true) ∧
   nconf_file st' !! "isCluster" = Some (JBool false) ∧
   nconf_file st' !! "singleHostCluster" = Some (JBool false)) ∧
  (Nconf.lookup st "isCluster" ≠ JUndefined →
   ∀ key, key ≠ "socket.io:origins" → Nconf.lookup st' key = Nconf.lookup st key).
Proof.
  intros H. autounfold with prog in H. run_eqs H; read_keys.
  - match goal with Hc : Js.strict_eq _ _ = true |- _ => apply strict_eq_undefined in Hc end.
    split_and!; [| |congruence]; [|intros _; split_and!]; read_file;
      repeat (rewrite lookup_insert_ne by done); rewrite lookup_insert_eq; congruence.
  - match goal with
    | Hc : Js.strict_eq ?x _ = false |- _ =>
        assert (x ≠ JUndefined) by (intros Hx; apply strict_eq_undefined in Hx; congruence)
    end.
    split_and!; [|congruence|].
    + read_file. rewrite lookup_insert_eq. congruence.
    + intros _ key Hkey. subst st'.
      match goal with Hs : ?s = with_nconf_file _ _ |- context [?s] => rewrite Hs end.
      by apply nconf_lookup_set_ne.
Qed.

(** X3. Who may open a socket, as the module leaves it.  When the module
    has loaded, socket.io:origins is the value of config.json if that is
    truthy; else it is built from the protocol of the url and the
    cookie domain, or the hostname of the url when no cookie domain is
    configured, for every port. *)
Theorem socket_origins_default (e : env) (st0 st1 : state) (c : gmap string jsval) :
  config_json e = Parsed c →
  module_top e st0 = (st1, Ok tt) →
  ∃ s, configured c "url" = JStr s ∧
       Nconf.lookup st1 "socket.io:origins"
       = Js.or (configured c "socket.io:origins")
               (JStr (Js.to_string (protocol (url_parse e s)) +:+ "//" +:+
                      Js.to_string (Js.or (configured c "cookieDomain")
                                          (hostname (url_parse e s)))
                      +:+ ":*")).
Proof.
  intros Hc H.
  destruct (module_top_after_derive _ _ _ _ Hc H)
    as (stb & stc & std & u & Hload & Hu & Ho & _ & Hkeep).
  pose proof (derive_paths_frame "socket.io:origins"
                ltac:(decided) e stb) as Hf1.
  pose proof (derive_paths_frame "cookieDomain"
                ltac:(decided) e stb) as Hf2.
  rewrite Hu in Hf1, Hf2. cbn [fst] in Hf1, Hf2.
  apply derive_paths_values in Hu as (s & Hurl & -> & _).
  apply socket_origins_values in Ho as (Hor & _).
  rewrite Hf1, Hf2 in Hor.
  rewrite !Hload in * by decided.
  exists s. split; [done|].
  rewrite Hkeep by not_database_key.
  apply (lookup_file_defined _ _ _ Hor).
  unfold Js.or at 1. destruct (Js.truthy (configured c "socket.io:origins")) eqn:Ht; [|done].
  by apply truthy_defined.
Qed.

(** X4. The cluster settings.  When config.json does not define
    isCluster, the loaded module runs as the primary of no cluster:
    isPrimary is true, isCluster and singleHostCluster are false.  When
    it defines isCluster, none of the three keys is written: each reads
    as in config.json. *)
Theorem cluster_defaults (e : env) (st0 st1 : state) (c : gmap string jsval) :
  config_json e = Parsed c →
  module_top e st0 = (st1, Ok tt) →
  (configured c "isCluster" = JUndefined →
   Nconf.lookup st1 "isPrimary" = JBool true ∧
   Nconf.lookup st1 "isCluster" = JBool false ∧
   Nconf.lookup st1 "singleHostCluster" = JBool false) ∧
  (configured c "isCluster" ≠ JUndefined →
   ∀ key, key ∈ ["isPrimary"; "isCluster"; "singleHostCluster"] →
          Nconf.lookup st1 key = configured c key).
Proof.
  intros Hc H.
  destruct (module_top_after_derive _ _ _ _ Hc H)
    as (stb & stc & std & u & Hload & Hu & Ho & _ & Hkeep).
  assert (∀ key, key ∈ ["isPrimary"; "isCluster"; "singleHostCluster"] →
                 Nconf.lookup stc key = configured c key) as Hconf.
  { intros key Hkey.
    pose proof (derive_paths_frame key) as Hf. unfold stable in Hf.
    specialize (Hf ltac:(unfold derived_keys; set_solver) e stb).
    rewrite Hu in Hf. cbn [fst] in Hf. rewrite Hf.
    apply Hload. unfold default_keys. set_solver. }
  apply socket_origins_values in Ho as (_ & Hundef & Hdef).
  rewrite (Hconf "isCluster") in Hundef, Hdef by set_solver.
  split.
  - intros Hu'. destruct (Hundef Hu') as (H1 & H2 & H3).
    rewrite !Hkeep by not_database_key.
    by rewrite (lookup_file_defined _ _ _ H1), (lookup_file_defined _ _ _ H2),
      (lookup_file_defined _ _ _ H3).
  - intros Hd key Hkey.
    rewrite Hkeep by (repeat (apply elem_of_cons in Hkey as [->|Hkey]);
                      [not_database_key..|by apply elem_of_nil in Hkey]).
    rewrite (Hdef Hd) by set_solver. by apply Hconf.
Qed.

(** ** The address of the forum *)

Lemma derive_paths_base_url e st st' u :
  derive_paths e st = (st', Ok u) →
  nconf_file st' !! "base_url"
  = Some (JStr (Js.to_string (protocol u) +:+ "//" +:+ Js.to_string (host u))) ∧
  nconf_file st' !! "upload_url" = Some (JStr "/assets/uploads") ∧
  nconf_file st' !! "url_parsed" = Some (url_to_js u).
Proof.
  intros H. autounfold with prog in H. run_eqs H. subst u.
  split_and!; read_file;
    repeat (rewrite lookup_insert_ne by done); by rewrite lookup_insert_eq.
Qed.

(** X5. The address of the forum.  When the module has loaded, secure
    is true exactly when the protocol of the url is https:, base_url is
    the protocol and the host of the url, url_parsed is the parsed url
    and upload_url is /assets/uploads whatever the url. *)
Theorem address_of_url (e : env) (st0 st1 : state) (c : gmap string jsval) :
  config_json e = Parsed c →
  module_top e st0 = (st1, Ok tt) →
  ∃ s, configured c "url" = JStr s ∧
       (Nconf.lookup st1 "secure" = JBool true ↔ protocol (url_parse e s) = JStr "https:") ∧
       Nconf.lookup st1 "base_url"
       = JStr (Js.to_string (protocol (url_parse e s)) +:+ "//" +:+
               Js.to_string (host (url_parse e s))) ∧
       Nconf.lookup st1 "url_parsed" = url_to_js (url_parse e s) ∧
       Nconf.lookup st1 "upload_url" = JStr "/assets/uploads".
Proof.
  intros Hc H.
  destruct (module_top_after_derive _ _ _ _ Hc H)
    as (stb & stc & std & u & Hload & Hu & _ & Hkeep & _).
  destruct (derive_paths_base_url _ _ _ _ Hu) as (Hbase & Hup & Hparsed).
  apply derive_paths_values in Hu as (s & Hurl & -> & _ & _ & Hsec & _).
  rewrite Hload in Hurl by decided.
  exists s. rewrite !Hkeep by (decided || not_database_key).
  rewrite (lookup_file_defined _ _ _ Hsec), (lookup_file_defined _ _ _ Hbase),
    (lookup_file_defined _ _ _ Hup), (lookup_file_defined _ _ _ Hparsed) by done.
  split_and!; [done| |done..].
  split.
  - intros [= Hs]. by apply strict_eq_true in Hs as [? _].
  - intros Hp. f_equal. apply strict_eq_true. by rewrite Hp.
Qed.

(** ** The settings of the [before] hook *)

Lemma service_startup_frame key :
  key ∉ ["theme_templates_path"; "sessionKey"] →
  stable (λ st, Nconf.lookup st key) service_startup.
Proof.
  intros Hk. stable_tac; apply nconf_lookup_set_ne; intros ?; subst key; apply Hk;
    set_solver.
Qed.

Lemma setupMockDefaults_frame key : stable (λ st, Nconf.lookup st key) setupMockDefaults.
Proof. intros e st. apply nconf_stores_lookup, setupMockDefaults_nconf. Qed.

Lemma service_startup_values e st st' :
  service_startup e st = (st', Ok tt) →
  meta_config st' = meta_config st ∧
  (Js.truthy (default JUndefined (meta_config st !! "theme:templates")) = true →
   ∃ joined,
     Path.join [Nconf.lookup st "themes_path";
                default JUndefined (meta_config st !! "theme:id");
                default JUndefined (meta_config st !! "theme:templates")] = Ok joined ∧
     nconf_file st' !! "theme_templates_path" = Some (JStr joined)) ∧
  (Js.truthy (default JUndefined (meta_config st !! "theme:templates")) = false →
   nconf_file st' !! "theme_templates_path" = Some (Nconf.lookup st "base_templates_path")) ∧
  (Js.truthy (Nconf.lookup st "sessionKey") = true →
   Nconf.lookup st' "sessionKey" = Nconf.lookup st "sessionKey") ∧
  (Js.truthy (Nconf.lookup st "sessionKey") = false →
   nconf_file st' !! "sessionKey" = Some (JStr "express.sid")).
Proof.
  intros H. autounfold with prog in H. run_eqs H; read_keys; bool_hyps.
  all: split_and!; [by read_proj meta_config|..]; intros Ht; try congruence.
  all: try (eexists; split; [by subst|]).
  all: try (read_file; repeat (rewrite lookup_insert_ne by done); rewrite lookup_insert_eq;
            congruence).
  all: by read_lookup.
Qed.

Lemma stable_run {X A} (proj : state → X) (m : M A) e st st' r :
  stable proj m → m e st = (st', r) → proj st' = proj st.
Proof. intros Hs H. specialize (Hs e st). by rewrite H in Hs. Qed.

Lemma setupMockDefaults_lookup e st st' r key :
  setupMockDefaults e st = (st', r) → Nconf.lookup st' key = Nconf.lookup st key.
Proof. apply (stable_run _ _ _ _ _ _ (setupMockDefaults_frame key)). Qed.

Lemma service_startup_lookup e st st' r key :
  key ∉ ["theme_templates_path"; "sessionKey"] →
  service_startup e st = (st', r) → Nconf.lookup st' key = Nconf.lookup st key.
Proof. intros Hk. apply (stable_run _ _ _ _ _ _ (service_startup_frame key Hk)). Qed.

(** Carries a configuration key back over a reset and over the start of
    the services. *)
Ltac frame_lookup :=
  repeat match goal with
         | Hm : service_startup _ ?s = (?s', _) |- context [Nconf.lookup ?s' ?k] =>
             rewrite (service_startup_lookup _ _ _ _ k ltac:(decided) Hm)
         | Hm : setupMockDefaults _ ?s = (?s', _) |- context [Nconf.lookup ?s' ?k] =>
             rewrite (setupMockDefaults_lookup _ _ _ _ k Hm)
         end.

Ltac unfold_hook H :=
  unfold before_hook, parse_url, under_dirname, path_join, Nconf.get, Nconf.set, await in H.

Ltac hook_key :=
  frame_lookup; rewrite ?lookup_with_trace; read_lookup;
  first [ by apply nconf_lookup_set_eq | done ].

(** X6. The settings of a test run are in place before the first call.
    In every run of the [before] hook that makes a call at all, also one
    that fails later, the configuration ends with bcrypt_rounds 1,
    socket.io:origins *:* and runJobs and jobsDisabled false, whatever
    config.json gives for these keys. *)
Theorem hook_settings_precede_calls (e : env) (st : state) :
  let st' := (before_hook e st).1 in
  trace st' ≠ trace st →
  Nconf.lookup st' "bcrypt_rounds" = JNum 1 ∧
  Nconf.lookup st' "socket.io:origins" = JStr "*:*" ∧
  Nconf.lookup st' "runJobs" = JBool false ∧
  Nconf.lookup st' "jobsDisabled" = JBool false.
Proof.
  destruct (before_hook e st) as [st' r] eqn:H. cbn [fst]. intros Hne.
  destruct r as [[]|x].
  - unfold_hook H. run_eqs H; split_and!; hook_key.
  - unfold_hook H. throw_steps H;
      try (exfalso; apply Hne; by read_proj trace);
      split_and!; hook_key.
Qed.

(** A run of the hook that completes: the state in which the services
    are started. *)
Lemma before_hook_inv e st st' :
  before_hook e st = (st', Ok tt) →
  ∃ stb base,
    service_startup e stb = (st', Ok tt) ∧
    (∀ key, key ∉ hook_settings_keys → Nconf.lookup stb key = Nconf.lookup st key) ∧
    Path.join [Nconf.lookup st "themes_path"; JStr "nodebb-theme-persona/templates"]
    = Ok base ∧
    Nconf.lookup stb "base_templates_path" = JStr base.
Proof.
  intros H. unfold_hook H. run_eqs H; read_keys.
  all: match goal with Hs : service_startup _ ?s = _ |- _ => exists s end.
  all: match goal with
       | Hj : Path.join [_; JStr "nodebb-theme-persona/templates"] = Ok ?b |- _ => exists b
       end.
  all: split_and!;
    [ done
    | intros key Hk; unfold hook_settings_keys in Hk; rewrite !not_elem_of_cons in Hk;
      destruct_and!; frame_lookup; read_lookup; done
    | congruence
    | frame_lookup; read_lookup; by apply nconf_lookup_set_eq ].
Qed.

(** X7. The name of the session cookie.  When the hook has completed,
    sessionKey is the configured value if that is truthy and express.sid
    otherwise, hence truthy in every case. *)
Theorem session_key_default (e : env) (st st' : state) :
  before_hook e st = (st', Ok tt) →
  Js.truthy (Nconf.lookup st' "sessionKey") = true ∧
  Nconf.lookup st' "sessionKey" = Js.or (Nconf.lookup st "sessionKey") (JStr "express.sid").
Proof.
  intros H. apply before_hook_inv in H as (stb & base & Hs & Hkeep & _).
  apply service_startup_values in Hs as (_ & _ & _ & Htrue & Hfalse).
  rewrite (Hkeep "sessionKey") in Htrue, Hfalse by decided.
  unfold Js.or. destruct (Js.truthy (Nconf.lookup st "sessionKey")) eqn:Ht.
  - rewrite (Htrue eq_refl). by split.
  - by rewrite (lookup_file_defined _ _ _ (Hfalse eq_refl)).
Qed.

(** X8. Where the templates of the theme are taken from.  When the hook
    has completed, base_templates_path is nodebb-theme-persona/templates
    below themes_path.  theme_templates_path is the same path when the
    loaded configuration has no truthy theme:templates; else it is the
    path made of themes_path, theme:id and theme:templates, which the
    hook could only join because all three are strings. *)
Theorem theme_templates_path_default (e : env) (st st' : state) :
  before_hook e st = (st', Ok tt) →
  ∃ base,
    Path.join [Nconf.lookup st "themes_path"; JStr "nodebb-theme-persona/templates"]
    = Ok base ∧
    Nconf.lookup st' "base_templates_path" = JStr base ∧
    (Js.truthy (default JUndefined (meta_config st' !! "theme:templates")) = false →
     Nconf.lookup st' "theme_templates_path" = JStr base) ∧
    (Js.truthy (default JUndefined (meta_config st' !! "theme:templates")) = true →
     ∃ joined,
       Path.join [Nconf.lookup st "themes_path";
                  default JUndefined (meta_config st' !! "theme:id");
                  default JUndefined (meta_config st' !! "theme:templates")] = Ok joined ∧
       Nconf.lookup st' "theme_templates_path" = JStr joined).
Proof.
  intros H. apply before_hook_inv in H as (stb & base & Hs & Hkeep & Hj & Hbase).
  pose proof (service_startup_lookup _ _ _ _ "base_templates_path" ltac:(decided) Hs) as Hb.
  apply service_startup_values in Hs as (Hmeta & Htrue & Hfalse & _).
  rewrite (Hkeep "themes_path") in Htrue by decided.
  rewrite Hmeta. exists base. split_and!; [done|congruence| |].
  - intros Ht. specialize (Hfalse Ht). rewrite Hbase in Hfalse.
    by apply (lookup_file_defined _ _ _ Hfalse).
  - intros Ht. destruct (Htrue Ht) as (joined & Hjoin & Hfile).
    exists joined. split; [done|]. by apply (lookup_file_defined _ _ _ Hfile).
Qed.

(** ** Runs that complete *)

Lemma require_json_throw file e st st' x :
  require_json file e st = (st', Throw x) →
  module_cache st !! file = None ∧ json_files e file = None.
Proof.
  unfold require_json. destruct (module_cache st !! file); [done|].
  by destruct (json_files e file).
Qed.

(** Closes the case of a step that cannot have failed. *)
Ltac no_fault He :=
  match goal with
  | H : faults _ _ = true |- _ => by rewrite He in H
  end.

Ltac joinable :=
  match goal with
  | H : Path.join [JStr ?a; JStr ?b] = Throw _ |- _ =>
      destruct (path_join_strings a b) as [? ?]; congruence
  end.

Lemma seed_steps_ok e st b file :
  no_faults e →
  Nconf.lookup st "base_dir" = JStr b →
  Path.join [JStr b; JStr "install/data/defaults.json"] = Ok file →
  is_Some (module_cache st !! file) ∨ is_Some (json_files e file) →
  ∃ st', seed_steps e st = (st', Ok tt).
Proof.
  intros He Hb Hj Hload.
  destruct (seed_steps e st) as [st' [[]|x]] eqn:H; [by eexists|exfalso].
  unfold seed_steps, setupDefaultConfigs, giveDefaultGlobalPrivileges,
    enableDefaultPlugins, await, sync, db_apply, set_meta_config, assign_in_module,
    Nconf.get, path_join in H.
  throw_steps H; try no_fault He; read_keys; subst_values; rewrite Hb in *.
  - joinable.
  - match goal with Hr : require_json _ _ _ = _ |- _ =>
      apply require_json_throw in Hr as [Hc Hf] end.
    read_keys.
    match goal with Hp : Path.join _ = Ok ?f |- _ => assert (file = f) as -> by congruence end.
    destruct Hload as [[? Hl]|[? Hl]]; congruence.
Qed.

Lemma setupMockDefaults_ok e st :
  no_faults e →
  defaults_available e st →
  fs st !! ["test"] ≠ Some File →
  ∃ st', setupMockDefaults e st = (st', Ok tt).
Proof.
  intros He (b & file & Hb & Hj & Hload) Hfs.
  unfold setupMockDefaults, empty_step, await, db_apply.
  rewrite bind_assoc, (bind_ok _ _ _ _ _ _ (invoke_ok _ _ e st He)), bind_modify.
  match goal with |- context [bind seed_steps _ _ ?s] =>
    destruct (seed_steps_ok e s b file He Hb Hj Hload) as [st1 H1] end.
  rewrite (bind_ok _ _ _ _ _ _ H1).
  apply seed_steps_inv in H1 as (_ & _ & _ & _ & _ & _ & _ & _ & Hfs1).
  cbn [fs with_db with_trace] in Hfs1.
  destruct (staged_total (fs st1)) as [f' Hf']; [by rewrite Hfs1|].
  destruct (stage_steps_ok e st1 f' He Hf') as (st' & H & _). by exists st'.
Qed.

Lemma setupMockDefaults_inv e st st' :
  setupMockDefaults e st = (st', Ok tt) →
  (∃ d, meta_config st' = test_meta_config (configs_loaded e d)) ∧
  (∃ file o,
     Path.join [Nconf.lookup st "base_dir"; JStr "install/data/defaults.json"] = Ok file ∧
     module_cache st' !! file = Some o).
Proof.
  intros H. unfold setupMockDefaults in H.
  apply bind_inv in H as ([] & st1 & H1 & H). apply empty_step_inv in H1.
  apply bind_inv in H as ([] & st2 & H2 & H).
  apply seed_steps_inv in H2 as (file & o & Hj & _ & Hcache & _ & Hmeta & _).
  pose proof (stable_run _ _ _ _ _ _ stage_steps_keeps H) as Hkeep.
  cbn beta in Hkeep. injection Hkeep as _ Hm Hc.
  split.
  - eexists. by rewrite Hm, Hmeta.
  - exists file, (test_defaults o). rewrite H1 in Hj. split; [done|].
    by rewrite Hc, Hcache, lookup_insert_eq.
Qed.

Lemma path_join_strings3 a b c : ∃ p, Path.join [JStr a; JStr b; JStr c] = Ok p.
Proof.
  unfold Path.join. simpl.
  destruct (String.eqb a ""), (String.eqb b ""), (String.eqb c ""); simpl; by eexists.
Qed.

Lemma service_startup_ok e st tp :
  no_faults e →
  Nconf.lookup st "themes_path" = JStr tp →
  theme_paths_joinable (meta_config st) →
  ∃ st', service_startup e st = (st', Ok tt).
Proof.
  intros He Htp Hth.
  destruct (service_startup e st) as [st' [[]|x]] eqn:H; [by eexists|exfalso].
  unfold service_startup, await, sync, Nconf.get, Nconf.set, path_join in H.
  throw_steps H; try no_fault He; read_keys; subst_values.
  destruct Hth as (ti & t & Hid & Ht); [done|].
  rewrite Htp, Hid, Ht in *. cbn [default from_option id] in *.
  match goal with Hp : Path.join _ = Throw _ |- _ =>
    destruct (path_join_strings3 tp ti t) as [? ?]; congruence end.
Qed.

Lemma theme_paths_test_meta_config m :
  theme_paths_joinable m → theme_paths_joinable (test_meta_config m).
Proof.
  unfold theme_paths_joinable, test_meta_config.
  by rewrite !(lookup_insert_ne _ _ "theme:templates"), !(lookup_insert_ne _ _ "theme:id").
Qed.

Ltac joinable3 :=
  match goal with
  | H : Path.join [JStr ?a; JStr ?b; JStr ?c] = Throw _ |- _ =>
      destruct (path_join_strings3 a b c) as [? ?]; congruence
  end.

Lemma before_hook_ok e st s tp :
  no_faults e →
  Nconf.lookup st "url" = JStr s →
  Nconf.lookup st "themes_path" = JStr tp →
  defaults_available e st →
  fs st !! ["test"] ≠ Some File →
  (∀ d, theme_paths_joinable (configs_loaded e d)) →
  ∃ st', before_hook e st = (st', Ok tt).
Proof.
  intros He Hu Htp Hda Hfs Hth.
  destruct (before_hook e st) as [st' [[]|x]] eqn:H; [by eexists|exfalso].
  unfold_hook H.
  throw_steps H; try no_fault He; read_keys; subst_values; try congruence;
    rewrite ?Htp in *; try joinable; try joinable3.
  all: try match goal with
    | Hm : setupMockDefaults _ ?sx = (_, Throw _) |- _ =>
        destruct (setupMockDefaults_ok e sx He) as [? Hok];
        [ destruct Hda as (b & file & Hb & Hj & Hload); exists b, file;
          split_and!; [by read_lookup | done | by read_proj module_cache]
        | by read_proj fs
        | congruence ]
    end.
  all: match goal with
    | Hm : setupMockDefaults _ ?sx = (?sy, Ok ?u), Hs : service_startup _ ?sy = (_, Throw _) |- _ =>
        destruct u;
        destruct (proj1 (setupMockDefaults_inv _ _ _ Hm)) as [d Hd];
        destruct (service_startup_ok e sy tp He) as [? Hok];
        [ frame_lookup; by read_lookup
        | rewrite Hd; apply theme_paths_test_meta_config, Hth
        | congruence ]
    end.
Qed.

(** X9. The hook completes.  With no failing call, a url and a themes
    path that are strings, a defaults.json that can be required, no file
    in the place of the directory test, and a loaded configuration whose
    theme:templates, if truthy, comes with strings to join, the [before]
    hook runs to its end: the test environment gets ready. *)
Theorem hook_completes (e : env) (st : state) (s tp : string) :
  no_faults e →
  Nconf.lookup st "url" = JStr s →
  Nconf.lookup st "themes_path" = JStr tp →
  defaults_available e st →
  fs st !! ["test"] ≠ Some File →
  (∀ d, theme_paths_joinable (configs_loaded e d)) →
  ∃ st', before_hook e st = (st', Ok tt) ∧
         trace st' = trace st ++ before_script (has_createIndices e).
Proof.
  intros He Hu Htp Hda Hfs Hth.
  destruct (before_hook_ok e st s tp He Hu Htp Hda Hfs Hth) as [st' H].
  exists st'. split; [done|].
  destruct (runs_before_hook e st) as (l & Hl & _ & Hfull).
  rewrite H in Hl, Hfull. cbn [fst snd] in Hl, Hfull.
  by rewrite Hl, (Hfull tt eq_refl).
Qed.

(** X10. A reset can be repeated.  Once setupMockDefaults has completed,
    it completes again from every later state in which the
    configuration and the cache of [require] are as it left them and no
    file has taken the place of the directory test, whatever the tests
    did to the store, to meta.config and to the upload directories, as
    long as no call fails: defaults.json is taken from the cache and
    need not be readable any more. *)
Theorem reset_repeats (e : env) (st st1 st2 : state) :
  no_faults e →
  setupMockDefaults e st = (st1, Ok tt) →
  nconf_stores st2 = nconf_stores st1 →
  module_cache st2 = module_cache st1 →
  fs st2 !! ["test"] ≠ Some File →
  ∃ st3, afterAll_callback e st2 = (st3, Ok tt) ∧
         trace st3 = trace st2 ++ reset_script.
Proof.
  intros He H Hn Hc Hfs.
  destruct (proj2 (setupMockDefaults_inv _ _ _ H)) as (file & o & Hj & Ho).
  assert (Nconf.lookup st2 "base_dir" = Nconf.lookup st "base_dir") as Hb.
  { rewrite (nconf_stores_lookup st1 st2 "base_dir" Hn).
    apply (setupMockDefaults_lookup _ _ _ _ _ H). }
  destruct (Nconf.lookup st "base_dir") as [| | | |b| |] eqn:Hbase; try discriminate Hj.
  unfold afterAll_callback.
  destruct (setupMockDefaults_ok e st2 He) as [st3 H3]; [|done|].
  { exists b, file. split_and!; [done..|]. left. rewrite Hc, Ho. by eexists. }
  exists st3. split; [done|].
  destruct (runs_setupMockDefaults e st2) as (l & Hl & _ & Hfull).
  rewrite H3 in Hl, Hfull. cbn [fst snd] in Hl, Hfull.
  by rewrite Hl, (Hfull tt eq_refl).
Qed.

(** ** The load of the module *)

Lemma load_nconf_paths e st st' c :
  config_json e = Parsed c →
  load_nconf e st = (st', Ok tt) →
  ∃ b t,
    Nconf.lookup st' "base_dir" = configured_or c "base_dir" (JStr b) ∧
    Nconf.lookup st' "themes_path" = configured_or c "themes_path" (JStr t).
Proof.
  intros Hc H. unfold load_nconf, under_dirname, path_join in H.
  run_inv H; simplify_eq. unfold Nconf.lookup, configured_or. cbn.
  eexists _, _. split.
  - by destruct (Nconf.defined (c !! "base_dir")).
  - by destruct (Nconf.defined (c !! "themes_path")).
Qed.

Lemma configured_or_string c key d :
  string_or_absent c key → ∃ p, configured_or c key (JStr d) = JStr p.
Proof.
  unfold string_or_absent, configured, configured_or.
  destruct (c !! key) as [[]|]; cbn; naive_solver.
Qed.

Lemma derive_paths_ok e st u b up :
  Nconf.lookup st "url" = JStr u →
  Nconf.lookup st "base_dir" = JStr b →
  Nconf.lookup st "upload_path" = JStr up →
  ∃ st' o, derive_paths e st = (st', Ok o).
Proof.
  intros Hu Hb Hup.
  destruct (derive_paths e st) as [st' [o|x]] eqn:H; [by eexists _, _|exfalso].
  autounfold with prog in H.
  throw_steps H; read_keys; subst_values; try congruence.
  rewrite Hb, Hup in *. joinable.
Qed.

Lemma socket_origins_ok u e st : ∃ st', socket_origins u e st = (st', Ok tt).
Proof.
  destruct (socket_origins u e st) as [st' [[]|x]] eqn:H; [by eexists|exfalso].
  autounfold with prog in H. throw_steps H.
Qed.

Lemma configure_ok e st c s :
  config_json e = Parsed c →
  configured c "url" = JStr s →
  string_or_absent c "base_dir" →
  string_or_absent c "upload_path" →
  ∃ st', configure e st = (st', Ok tt).
Proof.
  intros Hc Hu Hb Hup. unfold configure.
  rewrite (bind_ok _ _ _ _ _ _ (load_config_parsed e st c Hc)).
  destruct (load_nconf_parsed e st c Hc) as [stb Hload].
  rewrite (bind_ok _ _ _ _ _ _ Hload).
  destruct (load_nconf_paths _ _ _ _ Hc Hload) as (b & t & Hbase & _).
  destruct (configured_or_string c "base_dir" b Hb) as [b' Hb'].
  destruct (configured_or_string c "upload_path" "test/uploads" Hup) as [up Hup'].
  destruct (derive_paths_ok e stb s b' up) as (stc & o & Hd).
  - by rewrite (load_nconf_lookup _ _ _ _ _ Hc Hload) by decided.
  - congruence.
  - by rewrite (load_nconf_upload_default _ _ _ _ Hc Hload).
  - rewrite (bind_ok _ _ _ _ _ _ Hd). apply socket_origins_ok.
Qed.

Lemma module_top_fs : stable fs module_top.
Proof. stable_tac. Qed.

Lemma module_top_ok e st c s :
  config_json e = Parsed c →
  configured c "url" = JStr s →
  string_or_absent c "base_dir" →
  string_or_absent c "upload_path" →
  Js.truthy (configured c "test_database") = true →
  present (configured c "database") →
  ¬ same_store_target (configured c "test_database") (configured c "database") →
  ∃ st1, module_top e st = (st1, Ok tt).
Proof.
  intros Hc Hu Hb Hup Ht Hp Hne.
  destruct (configure_ok e st c s Hc Hu Hb Hup) as [st1 Hconf].
  assert (database_config e st1
          = (st1, Ok (DbSettings (configured c "database.type")
                                 (configured c "test_database")
                                 (configured c "database")))) as Hdb.
  { unfold database_config, bind, Nconf.get, gets, ret.
    rewrite !(configure_lookup _ _ _ _ _ Hc Hconf) by (unfold database_keys; set_solver).
    by rewrite Ht. }
  apply (same_target_false _ _ Ht Hp) in Hne.
  set (settings := DbSettings (configured c "database.type") (configured c "test_database")
                              (configured c "database")) in *.
  pose proof (environment_guard_differ settings e st1 Hne) as Hg.
  unfold module_top, resolve_config. rewrite !bind_assoc.
  rewrite (bind_ok _ _ _ _ _ _ Hconf), (bind_ok _ _ _ _ _ _ Hdb).
  rewrite (bind_ok _ _ _ _ _ _ Hg). by eexists.
Qed.

(** X11. The module loads.  With a config.json that gives a url as a
    string, base_dir and upload_path as strings or not at all, a truthy
    test_database and a database that is neither undefined nor null, and
    with the two not naming the same database, host and port, the top
    level of the module runs to its end, so that the hook is registered;
    it calls no other module on the way. *)
Theorem load_completes (e : env) (st : state) (c : gmap string jsval) (s : string) :
  config_json e = Parsed c →
  configured c "url" = JStr s →
  string_or_absent c "base_dir" →
  string_or_absent c "upload_path" →
  Js.truthy (configured c "test_database") = true →
  present (configured c "database") →
  ¬ same_store_target (configured c "test_database") (configured c "database") →
  ∃ st1, module_top e st = (st1, Ok tt) ∧ trace st1 = trace st.
Proof.
  intros Hc Hu Hb Hup Ht Hp Hne.
  destruct (module_top_ok e st c s Hc Hu Hb Hup Ht Hp Hne) as [st1 Htop].
  exists st1. split; [done|].
  apply (stable_run trace _ _ _ _ _ module_top_silent Htop).
Qed.

(** C8, as amended. When config.json cannot be read, the resolver
    throws the error of the read again with the state untouched.  When
    the file configures no url, the resolver throws the TypeError of
    url.parse, with the file loaded and none of the derived keys set.
    When it configures no test_database, the resolver throws (the error
    that the test database is not defined, unless building the
    configuration has failed before).  In these three cases the
    resolver gives no settings, the bootstrap fails with the same
    error, and it makes no call and leaves the store and the
    directories as they were.  When the file configures no database,
    the resolver does not fail for it: it completes whenever the rest
    of the file is in order, and it is the guard that throws a
    TypeError, reading the production target; the bootstrap stops
    there too, without a call.  When the file does not give
    database.type, nothing fails: the module loads, writes the test
    target under the key database.undefined, and the bootstrap goes on
    with the [before] hook. *)
Theorem missing_configuration_is_fatal (e : env) (st : state) :
  (config_json e = Unreadable →
   ∃ file, resolve_config e st = (st, Throw (FsError file)) ∧
           bootstrap e st = (st, Throw (FsError file))) ∧
  (∀ c, config_json e = Parsed c → configured c "url" = JUndefined →
        ∃ st', resolve_config e st = (st', Throw (Js.invalid_arg_type "url" JUndefined)) ∧
               bootstrap e st = (st', Throw (Js.invalid_arg_type "url" JUndefined)) ∧
               nconf_file st' = c ∧
               trace st' = trace st ∧ db st' = db st ∧ fs st' = fs st) ∧
  (∀ c, config_json e = Parsed c → configured c "test_database" = JUndefined →
        ∃ st' x, resolve_config e st = (st', Throw x) ∧
                 bootstrap e st = (st', Throw x) ∧
                 trace st' = trace st ∧ db st' = db st ∧ fs st' = fs st ∧
                 (∀ st1, configure e st = (st1, Ok tt) →
                         x = Error "Test database is not defined in config.json")) ∧
  (∀ c, config_json e = Parsed c → configured c "database" = JUndefined →
        (∃ st' x, bootstrap e st = (st', Throw x) ∧
                  trace st' = trace st ∧ db st' = db st ∧ fs st' = fs st) ∧
        (∀ st1 s, resolve_config e st = (st1, Ok s) →
                  productionDbConfig s = JUndefined ∧
                  bootstrap e st
                  = (st1, Throw (TypeError
                                   "Cannot read properties of undefined (reading 'database')"))) ∧
        (∀ u, configured c "url" = JStr u →
              string_or_absent c "base_dir" → string_or_absent c "upload_path" →
              Js.truthy (configured c "test_database") = true →
              ∃ st1 s, resolve_config e st = (st1, Ok s))) ∧
  (∀ c u, config_json e = Parsed c → configured c "database.type" = JUndefined →
          configured c "url" = JStr u →
          string_or_absent c "base_dir" → string_or_absent c "upload_path" →
          Js.truthy (configured c "test_database") = true →
          present (configured c "database") →
          ¬ same_store_target (configured c "test_database") (configured c "database") →
          ∃ st1, module_top e st = (st1, Ok tt) ∧
                 Nconf.lookup st1 "database.undefined" = configured c "test_database" ∧
                 bootstrap e st = before_hook e st1).
Proof.
  split_and!.
  - intros Hc. destruct (load_config_unreadable e st Hc) as [file Hf]. exists file.
    assert (resolve_config e st = (st, Throw (FsError file))) as Hr
      by (unfold resolve_config, configure; by do 2 apply bind_throw).
    split; [done|]. apply bootstrap_top_throws. unfold module_top. by apply bind_throw.
  - intros c Hc Hu. destruct (configure_url_absent e st c Hc Hu) as (st' & H & Hfile).
    exists st'.
    assert (resolve_config e st = (st', Throw (Js.invalid_arg_type "url" JUndefined))) as Hr
      by (unfold resolve_config; by apply bind_throw).
    assert (module_top e st = (st', Throw (Js.invalid_arg_type "url" JUndefined))) as Htop
      by (unfold module_top; by apply bind_throw).
    split_and!; [done | by apply bootstrap_top_throws | done | ..].
    + apply (stable_run trace _ _ _ _ _ module_top_silent Htop).
    + apply (stable_run db _ _ _ _ _ module_top_db Htop).
    + apply (stable_run fs _ _ _ _ _ module_top_fs Htop).
  - intros c Hc Ht.
    destruct (resolve_config e st) as [st' [s|x]] eqn:Hr.
    { destruct (resolve_config_settings _ _ _ _ _ Hc Hr) as [_ Htr]. by rewrite Ht in Htr. }
    exists st', x.
    assert (module_top e st = (st', Throw x)) as Htop
      by (unfold module_top; by apply bind_throw).
    split_and!; [done | by apply bootstrap_top_throws | ..].
    + apply (stable_run trace _ _ _ _ _ module_top_silent Htop).
    + apply (stable_run db _ _ _ _ _ module_top_db Htop).
    + apply (stable_run fs _ _ _ _ _ module_top_fs Htop).
    + intros st1 Hconf.
      assert (Nconf.lookup st1 "test_database" = JUndefined) as Hl.
      { rewrite (configure_lookup _ _ _ _ "test_database" Hc Hconf); [done|].
        unfold database_keys. set_solver. }
      unfold resolve_config in Hr. rewrite (bind_ok _ _ _ _ _ _ Hconf) in Hr.
      rewrite (database_config_absent e st1 Hl) in Hr. congruence.
  - intros c Hc Hp.
    assert (∀ st1 s, resolve_config e st = (st1, Ok s) →
              productionDbConfig s = JUndefined ∧
              module_top e st
              = (st1, Throw (TypeError
                               "Cannot read properties of undefined (reading 'database')")))
      as Hguard.
    { intros st1 s Hr. destruct (resolve_config_settings _ _ _ _ _ Hc Hr) as [Hs Ht].
      split; [by rewrite Hs|].
      unfold module_top. rewrite (bind_ok _ _ _ _ _ _ Hr). apply bind_throw.
      unfold environment_guard, bind, lift, same_target. rewrite Hs.
      cbn [testDbConfig productionDbConfig]. rewrite Hp.
      destruct (prop_truthy _ "database" Ht) as [v Hv]. by rewrite Hv. }
    split_and!.
    + destruct (module_top e st) as [st' [[]|x]] eqn:Htop.
      * pose proof Htop as Hinv. apply module_top_inv in Hinv as (st1 & s & Hr & _).
        destruct (Hguard _ _ Hr) as [_ Hthrow]. congruence.
      * exists st', x. split_and!; [by apply bootstrap_top_throws | ..].
        -- apply (stable_run trace _ _ _ _ _ module_top_silent Htop).
        -- apply (stable_run db _ _ _ _ _ module_top_db Htop).
        -- apply (stable_run fs _ _ _ _ _ module_top_fs Htop).
    + intros st1 s Hr. destruct (Hguard _ _ Hr) as [Hprod Hthrow].
      split; [done | by apply bootstrap_top_throws].
    + intros u Hu Hb Hup Ht.
      destruct (configure_ok e st c u Hc Hu Hb Hup) as [st1 Hconf].
      exists st1. eexists. unfold resolve_config. rewrite (bind_ok _ _ _ _ _ _ Hconf).
      unfold database_config, bind, Nconf.get, gets, ret.
      rewrite !(configure_lookup _ _ _ _ _ Hc Hconf) by (unfold database_keys; set_solver).
      by rewrite Ht.
  - intros c u Hc Hty Hu Hb Hup Ht Hp Hne.
    destruct (module_top_ok e st c u Hc Hu Hb Hup Ht Hp Hne) as [st1 Htop].
    exists st1. split_and!; [done| |].
    + apply module_top_inv in Htop as (st0 & s & Hr & _ & ->).
      destruct (resolve_config_settings _ _ _ _ _ Hc Hr) as [-> _].
      cbn [dbType testDbConfig]. rewrite Hty.
      change (database_key JUndefined) with "database.undefined".
      apply nconf_lookup_set_eq. by apply truthy_defined.
    + unfold bootstrap. by rewrite (bind_ok _ _ _ _ _ _ Htop).
Qed.

(** X12. The whole bootstrap completes.  For a config.json as the load
    needs it, with a themes path that is a string or left to its
    default, with no failing call, no file in the place of the
    directory test, a joinable theme configuration and a defaults.json
    that can be required once the module has loaded, the bootstrap runs
    to its end, and its calls are those of the hook, all of them. *)
Theorem bootstrap_completes (e : env) (st : state) (c : gmap string jsval) (s : string) :
  config_json e = Parsed c →
  configured c "url" = JStr s →
  string_or_absent c "base_dir" →
  string_or_absent c "upload_path" →
  string_or_absent c "themes_path" →
  Js.truthy (configured c "test_database") = true →
  present (configured c "database") →
  ¬ same_store_target (configured c "test_database") (configured c "database") →
  no_faults e →
  fs st !! ["test"] ≠ Some File →
  (∀ d, theme_paths_joinable (configs_loaded e d)) →
  (∀ st1, module_top e st = (st1, Ok tt) → defaults_available e st1) →
  ∃ st', bootstrap e st = (st', Ok tt) ∧
         trace st' = trace st ++ before_script (has_createIndices e).
Proof.
  intros Hc Hu Hb Hup Htp Ht Hp Hne He Hfs Hth Hda.
  destruct (module_top_ok e st c s Hc Hu Hb Hup Ht Hp Hne) as [st1 Htop].
  pose proof (stable_run trace _ _ _ _ _ module_top_silent Htop) as Htrace.
  pose proof (stable_run fs _ _ _ _ _ module_top_fs Htop) as Hfs1.
  destruct (module_top_keeps _ _ _ _ "url" Hc Htop) as (sta & stb & Hload & Hurl);
    [decided | decided | not_database_key |].
  rewrite (load_nconf_lookup _ _ _ _ _ Hc Hload) in Hurl by decided.
  destruct (module_top_keeps _ _ _ _ "themes_path" Hc Htop) as (sta' & stb' & Hload' & Hthemes);
    [decided | decided | not_database_key |].
  destruct (load_nconf_paths _ _ _ _ Hc Hload') as (b & t & _ & Hthemes').
  destruct (configured_or_string c "themes_path" t Htp) as [tp Htp'].
  destruct (before_hook_ok e st1 s tp) as [st' Hhook]; try done.
  { congruence. }
  { congruence. }
  { by apply Hda. }
  { by rewrite Hfs1. }
  exists st'. split.
  - unfold bootstrap. by rewrite (bind_ok _ _ _ _ _ _ Htop).
  - destruct (runs_before_hook e st1) as (l & Hl & _ & Hfull).
    rewrite Hhook in Hl, Hfull. cbn [fst snd] in Hl, Hfull.
    by rewrite Hl, (Hfull tt eq_refl), Htrace.
Qed.

(** X13. A reset completes.  With no failing call, a defaults.json that
    can be required and no file in the place of the directory test,
    setupMockDefaults runs to its end, from every store, meta.config
    and upload directory, and makes all the calls of a reset. *)
Theorem reset_completes (e : env) (st : state) :
  no_faults e →
  defaults_available e st →
  fs st !! ["test"] ≠ Some File →
  ∃ st', setupMockDefaults e st = (st', Ok tt) ∧ trace st' = trace st ++ reset_script.
Proof.
  intros He Hda Hfs. destruct (setupMockDefaults_ok e st He Hda Hfs) as [st' H].
  exists st'. split; [done|].
  destruct (runs_setupMockDefaults e st) as (l & Hl & _ & Hfull).
  rewrite H in Hl, Hfull. cbn [fst snd] in Hl, Hfull.
  by rewrite Hl, (Hfull tt eq_refl).
Qed.

(** ** The keys that the module does not write *)






(** ** Failures *)

Lemma load_config_malformed e st :
  config_json e = Malformed → load_config e st = (st, Ok tt).
Proof.
  intros Hc. unfold load_config.
  destruct (under_dirname_ok "../../config.json" e st) as [file Hf].
  rewrite (bind_ok _ _ _ _ _ _ Hf). unfold bind, gets. by rewrite Hc.
Qed.

Lemma load_nconf_malformed e st :
  config_json e = Malformed → ∃ file, load_nconf e st = (st, Throw (ParseError file)).
Proof.
  intros Hc. unfold load_nconf.
  destruct (under_dirname_ok "../../config.json" e st) as [file Hf].
  exists file. rewrite (bind_ok _ _ _ _ _ _ Hf). rewrite bind_gets, Hc. reflexivity.
Qed.

(** X15. A config.json that is no JSON.  The read of line 30 succeeds,
    nconf.file fails to parse the file: the bootstrap fails with this
    parse error, with nothing configured and no call made. *)
Theorem malformed_configuration_is_fatal (e : env) (st : state) :
  config_json e = Malformed →
  ∃ file, bootstrap e st = (st, Throw (ParseError file)).
Proof.
  intros Hc. destruct (load_nconf_malformed e st Hc) as [file Hf]. exists file.
  apply bootstrap_top_throws. unfold module_top, resolve_config, configure.
  do 2 apply bind_throw. rewrite (bind_ok _ _ _ _ _ _ (load_config_malformed e st Hc)).
  by apply bind_throw.
Qed.

(** X16. No defaults.json.  When install/data/defaults.json is neither
    in the cache of [require] nor loadable, a reset whose first call
    does not fail stops with the error of [require] right after
    db.emptydb: the store has been flushed, nothing is seeded, and the
    upload directories are as they were. *)
Theorem missing_defaults_stop_reset (e : env) (st : state) (b file : string) :
  faults e (length (trace st)) = false →
  Nconf.lookup st "base_dir" = JStr b →
  Path.join [JStr b; JStr "install/data/defaults.json"] = Ok file →
  module_cache st !! file = None →
  json_files e file = None →
  ∃ st', setupMockDefaults e st = (st', Throw (ModuleNotFound file)) ∧
         trace st' = trace st ++ [Ev db_emptydb true] ∧
         fs st' = fs st ∧ meta_config st' = meta_config st.
Proof.
  intros Hf Hb Hj Hc Hjson. eexists.
  unfold setupMockDefaults, empty_step, seed_steps, setupDefaultConfigs, await, db_apply,
    Nconf.get, path_join.
  rewrite !bind_assoc. unfold bind at 1. unfold invoke. rewrite Hf.
  rewrite bind_modify, !bind_assoc, bind_gets, lookup_with_db, lookup_with_trace, Hb.
  rewrite !bind_assoc. unfold bind at 1, lift. rewrite Hj.
  rewrite !bind_assoc. unfold bind at 1, require_json. cbn [module_cache with_db with_trace].
  rewrite Hc, Hjson. done.
Qed.

(** ** Rejected calls *)

Lemma rejected_ret {A} (a : A) : rejected_last (ret a).
Proof. by intros e st st' c. Qed.

Lemma rejected_gets {A} (f : env → state → A) : rejected_last (gets f).
Proof. by intros e st st' c. Qed.

Lemma rejected_modify f : rejected_last (modify f).
Proof. by intros e st st' c. Qed.

Lemma rejected_throw {A} x : (∀ c, x ≠ Rejected c) → rejected_last (@throw A x).
Proof. intros Hx e st st' c [= _ ->]. by destruct (Hx c). Qed.

Lemma rejected_lift {A} (r : result A) :
  (∀ c, r ≠ Throw (Rejected c)) → rejected_last (lift r).
Proof. intros Hr e st st' c [= _ ->]. by destruct (Hr c). Qed.

Lemma rejected_invoke aw c : rejected_last (invoke aw c).
Proof.
  intros e st st' c' H. apply invoke_inv_throw in H as (-> & [= ->] & Hf).
  by exists (trace st), aw.
Qed.

Lemma rejected_bind {A B} (m : M A) (k : A → M B) :
  rejected_last m → (∀ a, rejected_last (k a)) → rejected_last (bind m k).
Proof.
  intros Hm Hk e st st' c H.
  apply bind_inv_throw in H as [H|(a & st1 & _ & H)]; [by eapply Hm | by eapply Hk].
Qed.

Lemma rejected_assoc {A B C} (m : M A) (f : A → M B) (g : B → M C) :
  rejected_last (bind m (fun a => bind (f a) g)) → rejected_last (bind (bind m f) g).
Proof. intros H e st st' c. rewrite bind_assoc. apply H. Qed.

Lemma rejected_fs_apply op :
  (∀ f c, op f ≠ Throw (Rejected c)) → rejected_last (fs_apply op).
Proof.
  intros Hop e st st' c. unfold fs_apply.
  destruct (op (fs st)) as [f|x] eqn:H; [done|]. intros [= _ ->]. by destruct (Hop (fs st) c).
Qed.

Lemma rejected_require_json file : rejected_last (require_json file).
Proof.
  intros e st st' c. unfold require_json.
  destruct (module_cache st !! file); [done|]. by destruct (json_files e file).
Qed.

Lemma rejected_for_each {A} (l : list A) (body : A → M unit) :
  (∀ x, rejected_last (body x)) → rejected_last (for_each l body).
Proof.
  intros Hb. induction l as [|x rest IH]; simpl.
  - apply rejected_ret.
  - by apply rejected_bind.
Qed.

Lemma join_args_error j args x :
  Path.join_args j args = Throw x → ∃ v, x = Js.invalid_arg_type "path" v.
Proof.
  revert j. induction args as [|a rest IH]; intros j; cbn [Path.join_args]; [done|].
  destruct a as [| | | |s| |]; try (intros [= <-]; by eexists).
  destruct (String.eqb s ""); apply IH.
Qed.

Lemma path_join_not_rejected args c : Path.join args ≠ Throw (Rejected c).
Proof.
  unfold Path.join. destruct (Path.join_args None args) as [[]|x] eqn:H; try done.
  apply join_args_error in H as [v ->]. done.
Qed.

Lemma prop_not_rejected v name c : Js.prop v name ≠ Throw (Rejected c).
Proof. by destruct v. Qed.

Lemma same_target_not_rejected t p c : same_target t p ≠ Throw (Rejected c).
Proof.
  unfold same_target. intros H.
  repeat match type of H with
         | context [Js.prop ?v ?n] =>
             let Hp := fresh in
             destruct (Js.prop v n) eqn:Hp;
             [|destruct (prop_not_rejected v n c); congruence]
         | context [if ?b then _ else _] => destruct b
         end; done.
Qed.

Lemma fs_rm_not_rejected name f c : Fs.rm name f ≠ Throw (Rejected c).
Proof. unfold Fs.rm. by case_match. Qed.

Lemma fs_mkdirp_not_rejected name f c : Fs.mkdirp name f ≠ Throw (Rejected c).
Proof. unfold Fs.mkdirp. by case_match. Qed.

Ltac rejected_step :=
  lazymatch goal with
  | |- rejected_last (bind (bind _ _) _) => apply rejected_assoc
  | |- rejected_last (bind _ _) => apply rejected_bind; [|intros ?]
  | |- rejected_last (ret _) => apply rejected_ret
  | |- rejected_last (throw _) => apply rejected_throw; done
  | |- rejected_last (lift (Path.join _)) =>
      apply rejected_lift; intros ?; apply path_join_not_rejected
  | |- rejected_last (lift (same_target _ _)) =>
      apply rejected_lift; intros ?; apply same_target_not_rejected
  | |- rejected_last (gets _) => apply rejected_gets
  | |- rejected_last (modify _) => apply rejected_modify
  | |- rejected_last (invoke _ _) => apply rejected_invoke
  | |- rejected_last (fs_apply (Fs.rm _)) =>
      apply rejected_fs_apply; intros ??; apply fs_rm_not_rejected
  | |- rejected_last (fs_apply (Fs.mkdirp _)) =>
      apply rejected_fs_apply; intros ??; apply fs_mkdirp_not_rejected
  | |- rejected_last (require_json _) => apply rejected_require_json
  | |- rejected_last (for_each _ _) => apply rejected_for_each; intros ?
  | |- rejected_last (if ?b then _ else _) => destruct b
  | |- rejected_last (match ?x with _ => _ end) => destruct x
  end.

Lemma rejected_setupMockDefaults : rejected_last setupMockDefaults.
Proof. autounfold with prog. repeat rejected_step. Qed.

Lemma rejected_bootstrap : rejected_last bootstrap.
Proof. autounfold with prog. repeat rejected_step. Qed.

(** X17. A rejected call ends the run.  When the bootstrap, or a reset
    after a suite, fails with the rejection of a call, this call is the
    last one it has made, and it is the call that the environment let
    fail: no step runs after a failed one, and the error of the call is
    not replaced by another. *)
Theorem rejected_call_is_last (e : env) (st st' : state) (c : call) :
  bootstrap e st = (st', Throw (Rejected c)) ∨
  afterAll_callback e st = (st', Throw (Rejected c)) →
  ∃ l aw, trace st' = l ++ [Ev c aw] ∧ faults e (length l) = true.
Proof.
  intros [H|H].
  - by apply (rejected_bootstrap e st).
  - by apply (rejected_setupMockDefaults e st).
Qed.

(** ** The further properties at the sample configurations *)

Lemma run_throw {A} (r : state * result A) x : r.2 = Throw x → r = (r.1, Throw x).
Proof. destruct r as [st y]. simpl. by intros ->. Qed.

Lemma separate_targets_differ :
  ¬ same_store_target (configured separate_content "test_database")
                      (configured separate_content "database").
Proof. intros [(v & H1 & H2 & _) _]. vm_compute in H1, H2. congruence. Defined.

Lemma sample_defaults_available e st :
  json_files e = json_files separate_env →
  Nconf.lookup st "base_dir" = JStr "/repo" →
  defaults_available e st.
Proof.
  intros Hj Hb. exists "/repo", "/repo/install/data/defaults.json".
  split_and!; [done | by vm_compute |]. right. rewrite Hj. by eexists.
Defined.

Lemma with_db_keeps d st :
  nconf_stores (with_db d st) = nconf_stores st ∧
  module_cache (with_db d st) = module_cache st ∧
  fs (with_db d st) = fs st.
Proof. done. Qed.

Lemma port_precedence_witness :
  ∃ s, configured separate_content "url" = JStr s ∧
       Nconf.lookup loaded_state "port"
       = Js.or (Js.or (port (url_parse separate_env s)) (configured separate_content "port"))
               (JNum 4567) ∧
       Js.truthy (Nconf.lookup loaded_state "port") = true ∧
       Nconf.lookup loaded_state "use_port"
       = JBool (Js.truthy (port (url_parse separate_env s))).
Proof.
  apply (port_precedence separate_env (cold stale_db stale_fs) loaded_state
           separate_content eq_refl).
  unfold loaded_state. apply run_ok. by vm_compute.
Defined.

Lemma relative_path_of_url_witness :
  Nconf.lookup loaded_state "relative_path" = JStr "" ∧
  Nconf.lookup loaded_state "asset_base_url" = JStr "/assets".
Proof.
  apply (relative_path_of_url separate_env (cold stale_db stale_fs) loaded_state
           separate_content "http://localhost:4567" "/" eq_refl).
  - unfold loaded_state. apply run_ok. by vm_compute.
  - by vm_compute.
  - reflexivity.
Defined.

Lemma socket_origins_default_witness :
  ∃ s, configured separate_content "url" = JStr s ∧
       Nconf.lookup loaded_state "socket.io:origins"
       = Js.or (configured separate_content "socket.io:origins")
               (JStr (Js.to_string (protocol (url_parse separate_env s)) +:+ "//" +:+
                      Js.to_string (Js.or (configured separate_content "cookieDomain")
                                          (hostname (url_parse separate_env s)))
                      +:+ ":*")).
Proof.
  apply (socket_origins_default separate_env (cold stale_db stale_fs) loaded_state
           separate_content eq_refl).
  unfold loaded_state. apply run_ok. by vm_compute.
Defined.

Lemma cluster_defaults_witness :
  Nconf.lookup loaded_state "isPrimary" = JBool true ∧
  Nconf.lookup loaded_state "isCluster" = JBool false ∧
  Nconf.lookup loaded_state "singleHostCluster" = JBool false.
Proof.
  apply (proj1 (cluster_defaults separate_env (cold stale_db stale_fs) loaded_state
                  separate_content eq_refl
                  ltac:(unfold loaded_state; apply run_ok; by vm_compute))).
  by vm_compute.
Defined.

Lemma hook_settings_precede_calls_witness :
  let st' := (before_hook separate_env loaded_state).1 in
  Nconf.lookup st' "bcrypt_rounds" = JNum 1 ∧
  Nconf.lookup st' "socket.io:origins" = JStr "*:*" ∧
  Nconf.lookup st' "runJobs" = JBool false ∧
  Nconf.lookup st' "jobsDisabled" = JBool false.
Proof.
  apply (hook_settings_precede_calls separate_env loaded_state).
  vm_compute. discriminate.
Defined.

Lemma session_key_default_witness :
  let st' := (before_hook separate_env loaded_state).1 in
  Js.truthy (Nconf.lookup st' "sessionKey") = true ∧
  Nconf.lookup st' "sessionKey"
  = Js.or (Nconf.lookup loaded_state "sessionKey") (JStr "express.sid").
Proof.
  apply (session_key_default separate_env loaded_state).
  apply run_ok. by vm_compute.
Defined.

Lemma theme_templates_path_default_witness :
  let st' := (before_hook themed_env loaded_state).1 in
  ∃ base,
    Path.join [Nconf.lookup loaded_state "themes_path";
               JStr "nodebb-theme-persona/templates"] = Ok base ∧
    Nconf.lookup st' "base_templates_path" = JStr base ∧
    (Js.truthy (default JUndefined (meta_config st' !! "theme:templates")) = false →
     Nconf.lookup st' "theme_templates_path" = JStr base) ∧
    (Js.truthy (default JUndefined (meta_config st' !! "theme:templates")) = true →
     ∃ joined,
       Path.join [Nconf.lookup loaded_state "themes_path";
                  default JUndefined (meta_config st' !! "theme:id");
                  default JUndefined (meta_config st' !! "theme:templates")] = Ok joined ∧
       Nconf.lookup st' "theme_templates_path" = JStr joined).
Proof.
  apply (theme_templates_path_default themed_env loaded_state).
  apply run_ok. by vm_compute.
Defined.

Lemma hook_completes_witness :
  ∃ st', before_hook themed_env loaded_state = (st', Ok tt) ∧
         trace st' = trace loaded_state ++ before_script (has_createIndices themed_env).
Proof.
  apply (hook_completes themed_env loaded_state "http://localhost:4567" "/repo/node_modules").
  - intros n. reflexivity.
  - by vm_compute.
  - by vm_compute.
  - apply sample_defaults_available; [reflexivity | by vm_compute].
  - vm_compute. discriminate.
  - intros d _. exists "nodebb-theme-persona", "templates". by split.
Defined.

Lemma reset_repeats_witness :
  let st1 := (setupMockDefaults separate_env loaded_state).1 in
  ∃ st3, afterAll_callback separate_env (with_db stale_db st1) = (st3, Ok tt) ∧
         trace st3 = trace (with_db stale_db st1) ++ reset_script.
Proof.
  apply (reset_repeats separate_env loaded_state
           (setupMockDefaults separate_env loaded_state).1).
  - intros n. reflexivity.
  - apply run_ok. by vm_compute.
  - apply with_db_keeps.
  - apply with_db_keeps.
  - vm_compute. discriminate.
Defined.

Lemma load_completes_witness :
  ∃ st1, module_top separate_env (cold stale_db stale_fs) = (st1, Ok tt) ∧
         trace st1 = trace (cold stale_db stale_fs).
Proof.
  apply (load_completes separate_env (cold stale_db stale_fs) separate_content
           "http://localhost:4567" eq_refl).
  - by vm_compute.
  - left. by vm_compute.
  - left. by vm_compute.
  - by vm_compute.
  - by split.
  - exact separate_targets_differ.
Defined.

Lemma bootstrap_completes_witness :
  ∃ st', bootstrap themed_env (cold stale_db stale_fs) = (st', Ok tt) ∧
         trace st' = trace (cold stale_db stale_fs)
                     ++ before_script (has_createIndices themed_env).
Proof.
  apply (bootstrap_completes themed_env (cold stale_db stale_fs) separate_content
           "http://localhost:4567" eq_refl).
  - by vm_compute.
  - left. by vm_compute.
  - left. by vm_compute.
  - left. by vm_compute.
  - by vm_compute.
  - by split.
  - exact separate_targets_differ.
  - intros n. reflexivity.
  - vm_compute. discriminate.
  - intros d _. exists "nodebb-theme-persona", "templates". by split.
  - intros st1 H. apply sample_defaults_available; [reflexivity|].
    assert (st1 = (module_top themed_env (cold stale_db stale_fs)).1) as ->
      by by rewrite H.
    by vm_compute.
Defined.

Lemma reset_completes_witness :
  ∃ st', setupMockDefaults separate_env loaded_state = (st', Ok tt) ∧
         trace st' = trace loaded_state ++ reset_script.
Proof.
  apply (reset_completes separate_env loaded_state).
  - intros n. reflexivity.
  - apply sample_defaults_available; [reflexivity | by vm_compute].
  - vm_compute. discriminate.
Defined.


Lemma malformed_configuration_witness :
  ∃ file, bootstrap malformed_env (cold stale_db stale_fs)
          = (cold stale_db stale_fs, Throw (ParseError file)).
Proof. by apply (malformed_configuration_is_fatal malformed_env (cold stale_db stale_fs)). Defined.

Lemma missing_defaults_witness :
  ∃ st', setupMockDefaults no_defaults_env loaded_state
         = (st', Throw (ModuleNotFound "/repo/install/data/defaults.json")) ∧
         trace st' = trace loaded_state ++ [Ev db_emptydb true] ∧
         fs st' = fs loaded_state ∧ meta_config st' = meta_config loaded_state.
Proof.
  apply (missing_defaults_stop_reset no_defaults_env loaded_state "/repo"
           "/repo/install/data/defaults.json").
  - reflexivity.
  - by vm_compute.
  - by vm_compute.
  - by vm_compute.
  - reflexivity.
Defined.

Lemma rejected_call_is_last_witness :
  ∃ l aw, trace (bootstrap failing_env (cold stale_db stale_fs)).1
          = l ++ [Ev meta_configs_setOnEmpty aw] ∧
          faults failing_env (length l) = true.
Proof.
  apply (rejected_call_is_last failing_env (cold stale_db stale_fs)).
  left. apply run_throw. by vm_compute.
Defined.

Lemma address_of_url_witness :
  ∃ s, configured separate_content "url" = JStr s ∧
       (Nconf.lookup loaded_state "secure" = JBool true
        ↔ protocol (url_parse separate_env s) = JStr "https:") ∧
       Nconf.lookup loaded_state "base_url"
       = JStr (Js.to_string (protocol (url_parse separate_env s)) +:+ "//" +:+
               Js.to_string (host (url_parse separate_env s))) ∧
       Nconf.lookup loaded_state "url_parsed" = url_to_js (url_parse separate_env s) ∧
       Nconf.lookup loaded_state "upload_url" = JStr "/assets/uploads".
Proof.
  apply (address_of_url separate_env (cold stale_db stale_fs) loaded_state
           separate_content eq_refl).
  unfold loaded_state. apply run_ok. by vm_compute.
Defined.

(** ** Missing configuration *)

Lemma missing_configuration_witness :
  (∃ file, resolve_config unreadable_env (cold stale_db stale_fs)
           = (cold stale_db stale_fs, Throw (FsError file)) ∧
           bootstrap unreadable_env (cold stale_db stale_fs)
           = (cold stale_db stale_fs, Throw (FsError file))) ∧
  (∃ st', resolve_config (sample_env no_url_content) (cold stale_db stale_fs)
          = (st', Throw (Js.invalid_arg_type "url" JUndefined)) ∧
          bootstrap (sample_env no_url_content) (cold stale_db stale_fs)
          = (st', Throw (Js.invalid_arg_type "url" JUndefined)) ∧
          nconf_file st' = no_url_content ∧
          trace st' = trace (cold stale_db stale_fs) ∧
          db st' = db (cold stale_db stale_fs) ∧ fs st' = fs (cold stale_db stale_fs)) ∧
  (∃ st' x, resolve_config (sample_env no_test_database_content) (cold stale_db stale_fs)
            = (st', Throw x) ∧
            bootstrap (sample_env no_test_database_content) (cold stale_db stale_fs)
            = (st', Throw x) ∧
            trace st' = trace (cold stale_db stale_fs) ∧
            db st' = db (cold stale_db stale_fs) ∧ fs st' = fs (cold stale_db stale_fs) ∧
            (∀ st1, configure (sample_env no_test_database_content) (cold stale_db stale_fs)
                    = (st1, Ok tt) →
                    x = Error "Test database is not defined in config.json")) ∧
  (∃ st1 s, resolve_config (sample_env no_database_content) (cold stale_db stale_fs)
            = (st1, Ok s) ∧
            productionDbConfig s = JUndefined ∧
            bootstrap (sample_env no_database_content) (cold stale_db stale_fs)
            = (st1, Throw (TypeError
                             "Cannot read properties of undefined (reading 'database')"))) ∧
  (∃ st1, module_top (sample_env no_database_type_content) (cold stale_db stale_fs)
          = (st1, Ok tt) ∧
          Nconf.lookup st1 "database.undefined"
          = configured no_database_type_content "test_database" ∧
          bootstrap (sample_env no_database_type_content) (cold stale_db stale_fs)
          = before_hook (sample_env no_database_type_content) st1).
Proof.
  split_and!.
  - by apply (proj1 (missing_configuration_is_fatal unreadable_env (cold stale_db stale_fs))).
  - by apply (proj1 (proj2 (missing_configuration_is_fatal (sample_env no_url_content)
                              (cold stale_db stale_fs))) no_url_content).
  - by apply (proj1 (proj2 (proj2 (missing_configuration_is_fatal
                                     (sample_env no_test_database_content)
                                     (cold stale_db stale_fs)))) no_test_database_content).
  - destruct (proj1 (proj2 (proj2 (proj2 (missing_configuration_is_fatal
                                            (sample_env no_database_content)
                                            (cold stale_db stale_fs)))))
                no_database_content eq_refl eq_refl) as (_ & Hguard & Hresolves).
    destruct (Hresolves "http://localhost:4567") as (st1 & s & Hr);
      [by vm_compute | left; by vm_compute | left; by vm_compute | by vm_compute |].
    exists st1, s. split; [done|]. by apply Hguard.
  - apply (proj2 (proj2 (proj2 (proj2 (missing_configuration_is_fatal
                                         (sample_env no_database_type_content)
                                         (cold stale_db stale_fs)))))
             no_database_type_content "http://localhost:4567" eq_refl).
    + by vm_compute.
    + by vm_compute.
    + left. by vm_compute.
    + left. by vm_compute.
    + by vm_compute.
    + by split.
    + exact separate_targets_differ.
Defined.

(** C8 as stated fails: the type of the database is part of the
    connection information of the store, and a config.json that does
    not give database.type makes nothing fail: the resolver gives its
    settings, the bootstrap completes with all its calls, db.emptydb
    among them, and the test target is configured under the key
    database.undefined.  And when database is absent, the resolver
    does not fail either: it gives settings without a production
    target. *)
Lemma database_type_not_required :
  configured no_database_type_content "database.type" = JUndefined ∧
  (resolve_config (sample_env no_database_type_content) (cold stale_db stale_fs)).2
  = Ok (DbSettings JUndefined (target "test" "127.0.0.1" 6379)
                   (target "prod" "127.0.0.1" 6379)) ∧
  (bootstrap (sample_env no_database_type_content) (cold stale_db stale_fs)).2 = Ok tt ∧
  trace (bootstrap (sample_env no_database_type_content) (cold stale_db stale_fs)).1
  = before_script true ∧
  Ev db_emptydb true
  ∈ trace (bootstrap (sample_env no_database_type_content) (cold stale_db stale_fs)).1 ∧
  Nconf.lookup (bootstrap (sample_env no_database_type_content) (cold stale_db stale_fs)).1
    "database.undefined" = target "test" "127.0.0.1" 6379 ∧
  configured no_database_content "database" = JUndefined ∧
  (resolve_config (sample_env no_database_content) (cold stale_db stale_fs)).2
  = Ok (DbSettings (JStr "redis") (target "test" "127.0.0.1" 6379) JUndefined).
Proof.
  split_and!; try by vm_compute.
  apply list_elem_of_In. vm_compute. tauto.
Qed.
